(** * finam-download: download-and-persist script of finam-export

    A shallow embedding of [scripts/finam-download.py] and the properties
    of its download pipeline: option validation, destination naming,
    append-mode date planning, per-instrument error handling, the
    append-mode merge and the pacing delay.

    The script is one function, [main], whose body is a loop over the
    requested contract codes.  It is embedded as a computation in a
    state-and-exception monad over a [World] made of the local
    filesystem and the chronological trace of observable calls (lookup,
    download, file reads and writes, log records, sleeps).  The remote
    services and the disk are taken as an environment [Env]. *)

From Stdlib Require Import Ascii.
From stdpp Require Import gmap strings list pretty.

#[local] Set Warnings "-clear-no-such-hyp".

(** ** Data frames *)

(** A cell of a frame: the provider's columns hold integers or text. *)
Inductive Cell :=
  | CInt (z : Z)
  | CStr (s : string).

(** A row of a downloaded frame: the [<DATE>] column and the others. *)
Record Row := mkRow { DATE : Cell; columns : list Cell }.

#[global] Instance Cell_eq_dec : EqDecision Cell.
Proof. solve_decision. Defined.

#[global] Instance Row_eq_dec : EqDecision Row.
Proof. solve_decision. Defined.

(** A [pd.DataFrame] is its sequence of rows, in positional order;
    [pd.DataFrame()] is the empty sequence. *)
Abbreviation DataFrame := (list Row).

(** [df.shape[0]] *)
Definition shape0 (df : DataFrame) : Z := Z.of_nat (length df).

(** [pd.concat([a, b])] *)
Definition pd_concat (a b : DataFrame) : DataFrame := a ++ b.

(** [df.drop_duplicates()]: a row is dropped when an equal row (all
    columns) was met before it; the first of equal rows stays where it
    is.  [seen] holds the rows met so far. *)
Fixpoint drop_duplicates_from (seen : list Row) (df : DataFrame) : DataFrame :=
  match df with
  | [] => []
  | r :: rest =>
      if decide (r ∈ seen) then drop_duplicates_from seen rest
      else r :: drop_duplicates_from (r :: seen) rest
  end.

Definition drop_duplicates (df : DataFrame) : DataFrame :=
  drop_duplicates_from [] df.

(** [series.astype(str)[...]] on one cell *)
Definition astype_str (c : Cell) : string :=
  match c with
  | CInt z => pretty z
  | CStr s => s
  end.

(** [df.iloc[-1]]: the last row, [None] standing for [IndexError]. *)
Definition iloc_last (df : DataFrame) : option Row := last df.

(** ** Dates *)

(** Dates at midnight, as click's [Datetime('%Y-%m-%d')] and
    [strptime(_, '%Y%m%d')] produce them. *)
Record datetime := mkDate { year : Z; month : Z; day : Z }.

#[global] Instance datetime_eq_dec : EqDecision datetime.
Proof. solve_decision. Defined.

Definition is_leap (y : Z) : bool :=
  bool_decide (y mod 4 = 0)%Z &&
  (negb (bool_decide (y mod 100 = 0)%Z) || bool_decide (y mod 400 = 0)%Z).

Definition days_in_month (y m : Z) : Z :=
  if bool_decide (m = 2)%Z then (if is_leap y then 29 else 28)%Z
  else if bool_decide (m = 4 ∨ m = 6 ∨ m = 9 ∨ m = 11)%Z then 30%Z
  else 31%Z.

(** What the [datetime] constructor accepts. *)
Definition valid_date (y m d : Z) : bool :=
  bool_decide (1 ≤ y ≤ 9999)%Z && bool_decide (1 ≤ m ≤ 12)%Z &&
  bool_decide (1 ≤ d ≤ days_in_month y m)%Z.

(** [\d] on one character.  The texts of the model are made of the
    characters of code 0 to 255; the decimal digits among them are [0]
    to [9]. *)
Definition digit (c : ascii) : option Z :=
  let n := Z.of_N (N_of_ascii c) in
  if bool_decide (48 ≤ n ≤ 57)%Z then Some (n - 48)%Z else None.

(** One alternative of a regular-expression group: the value it reads
    and the rest of the input. *)
Definition Alt := string → option (Z * string).

Definition two_digits (p1 p2 : Z → bool) : Alt := λ s,
  match s with
  | String a (String b rest) =>
      match digit a, digit b with
      | Some x, Some y => if p1 x && p2 y then Some (10 * x + y, rest)%Z else None
      | _, _ => None
      end
  | _ => None
  end.

Definition one_digit (p : Z → bool) : Alt := λ s,
  match s with
  | String a rest =>
      match digit a with
      | Some x => if p x then Some (x, rest) else None
      | None => None
      end
  | _ => None
  end.

Definition space_digit (p : Z → bool) : Alt := λ s,
  match s with
  | String " "%char rest => one_digit p rest
  | _ => None
  end.

Definition four_digits : Alt := λ s,
  match s with
  | String a (String b (String c (String d rest))) =>
      match digit a, digit b, digit c, digit d with
      | Some x, Some y, Some z, Some t =>
          Some (1000 * x + 100 * y + 10 * z + t, rest)%Z
      | _, _, _, _ => None
      end
  | _ => None
  end.

Definition between (lo hi x : Z) : bool := bool_decide (lo ≤ x ≤ hi)%Z.

(** [%Y] is [\d\d\d\d]; [%m] is [1[0-2]|0[1-9]|[1-9]]; [%d] is
    [3[01]|[12]\d|0[1-9]|[1-9]| [1-9]]. *)
Definition regex_Y : list Alt := [four_digits].
Definition regex_m : list Alt :=
  [two_digits (between 1 1) (between 0 2);
   two_digits (between 0 0) (between 1 9);
   one_digit (between 1 9)].
Definition regex_d : list Alt :=
  [two_digits (between 3 3) (between 0 1);
   two_digits (between 1 2) (between 0 9);
   two_digits (between 0 0) (between 1 9);
   one_digit (between 1 9);
   space_digit (between 1 9)].

(** The matches of a group at the head of [s], in the order a
    backtracking matcher tries them. *)
Definition alternatives (g : list Alt) (s : string) : list (Z * string) :=
  omap (λ a : Alt, a s) g.

(** [re.match] of [%Y%m%d] at the start of [s]: the first way through
    the three groups. *)
Definition match_Ymd (s : string) : option (Z * Z * Z * string) :=
  head (ys ← alternatives regex_Y s;
        ms ← alternatives regex_m ys.2;
        ds ← alternatives regex_d ms.2;
        [(ys.1, ms.1, ds.1, ds.2)]).

(** [datetime.datetime.strptime(s, '%Y%m%d')], [None] standing for
    [ValueError]: no match, unconverted data left, or no such day. *)
Definition strptime_Ymd (s : string) : option datetime :=
  match match_Ymd s with
  | Some (y, m, d, "") => if valid_date y m d then Some (mkDate y m d) else None
  | _ => None
  end.

(** ** Paths and formats *)

(** [os.path.join(a, b)] on POSIX. *)
Definition os_path_join (a b : string) : string :=
  if String.prefix "/" b then b
  else if bool_decide (a = "") || String.prefix "/" (String.rev a) then a +:+ b
  else a +:+ "/" +:+ b.

(** [s[:3]] *)
Definition slice3 (s : string) : string := String.substring 0 3 s.

(** Modelled from the spec: the [Fileformat] enumeration of the [finam]
    package, whose declaration is not part of the script.  The script
    receives the member's name after [click_validate_enum] has accepted
    it; the four names are the ones the script tests for (CSV,
    CSV_COMPRESSED, BINARY and BINARY_COMPRESSED of the format table). *)
Inductive Fileformat := CSV | CSVGZ | PKL | PKLXZ.

Definition Fileformat_name (f : Fileformat) : string :=
  match f with
  | CSV => "CSV"
  | CSVGZ => "CSVGZ"
  | PKL => "PKL"
  | PKLXZ => "PKLXZ"
  end.

(** Lines 121-136: the destination path and the compression. *)
Definition destination (destdir code timeframe ext fileformat : string)
  : string * option string :=
  let destpath := os_path_join destdir (code +:+ "-" +:+ timeframe) in
  let compression : option string := None in
  let '(destpath, compression) :=
    if String.eqb fileformat "CSV" then (destpath +:+ "." +:+ ext, None)
    else if String.eqb fileformat "CSVGZ" then (destpath +:+ ".csv.gz", Some "gzip")
    else (destpath, compression) in
  let '(destpath, compression) :=
    if String.eqb fileformat "PKL" then (destpath +:+ ".pkl", None)
    else (destpath, compression) in
  let '(destpath, compression) :=
    if String.eqb fileformat "PKLXZ" then (destpath +:+ ".pkl.xz", Some "xz")
    else (destpath, compression) in
  (destpath, compression).

(** ** The world the script runs in *)

(** A row of the frame [exporter.lookup] returns. *)
Module Contract.
Record t := mk { id : Z; code : string; market : Z }.
End Contract.

#[global] Instance Contract_eq_dec : EqDecision Contract.t.
Proof. solve_decision. Defined.

(** Modelled from the spec: the exception classes of the [finam]
    package, whose declarations are not part of the script.
    [FinamExportError] is the export error and [FinamObjectNotFoundError]
    the not-found error of the lookup; in the package the second derives
    from the first, so a handler for export errors catches both.  The
    other constructors are the exceptions the script and the libraries
    it calls raise on the paths modelled here; [UnpicklingError],
    [EOFError] and [LZMAError] are what reading a file that holds no
    pickled frame can raise. *)
Inductive Exc :=
  | BadParameter (message : string)
  | SystemExit (status : Z)
  | FinamExportError (detail : string)
  | FinamObjectNotFoundError
  | IndexError
  | ValueError
  | FileNotFoundError
  | UnpicklingError
  | EOFError
  | LZMAError
  | OSError
  | OtherError (detail : string).

#[global] Instance Exc_eq_dec : EqDecision Exc.
Proof. solve_decision. Defined.

(** [except FinamExportError] *)
Definition is_FinamExportError (e : Exc) : bool :=
  match e with
  | FinamExportError _ | FinamObjectNotFoundError => true
  | _ => false
  end.

(** [except FinamObjectNotFoundError] *)
Definition is_FinamObjectNotFoundError (e : Exc) : bool :=
  match e with
  | FinamObjectNotFoundError => true
  | _ => false
  end.

(** What a path holds: a pickled frame ([read_pickle] gives it back), a
    frame written as text, or the remains of a write that failed after
    the file had been opened for writing. *)
Inductive File :=
  | Pickled (df : DataFrame)
  | Text (df : DataFrame) (line_terminator : string)
  | Partial.

#[global] Instance File_eq_dec : EqDecision File.
Proof. solve_decision. Defined.

Inductive Level := INFO | ERROR.

(** The log records of the script, one constructor per format string. *)
Inductive Message :=
  | Handling (contract_code : string)
  | UnknownContract (contract_code : string)
  | DownloadingContract (contract : Contract.t)
  | FoundLocalFile (last_existing_date : string)
  | AppendNoLocalFile
  | LinesDownloaded (lines : Z)
  | ErrorRepr (e : Exc)
  | RecordsAdded (added existing : Z)
  | DataSaved (destpath : string)
  | Sleeping (delay : Z).

(** The observable calls of a run, in the order they are made. *)
Inductive Event :=
  | EvCreated
  | EvLookup (code market : option string)
  | EvDownload (id : Z) (start_date end_date : datetime) (timeframe : string)
               (market : Z)
  | EvExists (path : string)
  | EvReadPickle (path : string)
  | EvToCsv (path : string) (df : DataFrame) (line_terminator : string)
            (compression : option string)
  | EvToPickle (path : string) (df : DataFrame) (compression : option string)
  | EvLog (level : Level) (msg : Message)
  | EvSleep (seconds : Z).

#[global] Instance Level_eq_dec : EqDecision Level.
Proof. solve_decision. Defined.
#[global] Instance Message_eq_dec : EqDecision Message.
Proof. solve_decision. Defined.
#[global] Instance Event_eq_dec : EqDecision Event.
Proof. solve_decision. Defined.

Record World := mkWorld { files : gmap string File; trace : list Event }.

(** The remote service behind [Exporter]: what a lookup and a download
    answer, an exception or a frame. *)
Record Exporter := mkExporter {
  lookup : option string → option string → Exc + list Contract.t;
  download : Z → datetime → datetime → string → Z → Exc + DataFrame
}.

(** How a write to a path goes: it completes, the file cannot be opened,
    or it is opened for writing (which empties it) and the write fails
    before the end. *)
Inductive Fault := NoFault | OpenFails | WriteFails.

(** What the script finds around it: the remote service; how the writes
    to each path go; the values that belong to a member of the [Market]
    enumeration of the [finam] package, whose declaration is not part of
    the script; and the exception [pd.read_pickle] raises at a path on
    a file that holds no pickled frame, which goes by the bytes found
    and by the suffix of the path ([EOFError] on an empty file,
    [UnpicklingError] on bytes that are no pickle, [LZMAError] on bytes
    that are no xz stream under [.xz]). *)
Record Env := mkEnv {
  exporter : Exporter;
  disk : string → Fault;
  Market_value : Z → bool;
  unpickling : string → File → Exc
}.

(** ** The monad of the script: state and exceptions *)

Inductive Outcome (A : Type) :=
  | Returns (a : A)
  | Raises (e : Exc).
Arguments Returns {A} a.
Arguments Raises {A} e.

Definition M (A : Type) : Type := World → Outcome A * World.

Definition ret {A} (a : A) : M A := λ w, (Returns a, w).

Definition bind {A B} (c : M A) (k : A → M B) : M B := λ w,
  match c w with
  | (Returns a, w') => k a w'
  | (Raises e, w') => (Raises e, w')
  end.

Definition raise {A} (e : Exc) : M A := λ w, (Raises e, w).

(** [try: c  except <h>: ...]: [h] tells which exceptions are caught
    and what the handler does. *)
Definition try_except {A} (c : M A) (h : Exc → option (M A)) : M A := λ w,
  match c w with
  | (Returns a, w') => (Returns a, w')
  | (Raises e, w') =>
      match h e with
      | Some handler => handler w'
      | None => (Raises e, w')
      end
  end.

Declare Scope script_scope.
Delimit Scope script_scope with script.
Notation "x <- c ;; k" := (bind c (λ x, k))
  (at level 100, c at next level, right associativity) : script_scope.
Notation "c ;; k" := (bind c (λ _, k))
  (at level 100, right associativity) : script_scope.
Local Open Scope script_scope.

Definition emit (e : Event) : M unit := λ w,
  (Returns (), mkWorld (files w) (trace w ++ [e])).

Definition store (path : string) (f : File) : M unit := λ w,
  (Returns (), mkWorld (<[path := f]> (files w)) (trace w)).

Definition from_option {A} (o : option A) (e : Exc) : M A :=
  match o with
  | Some a => ret a
  | None => raise e
  end.

Definition from_sum {A} (r : Exc + A) : M A :=
  match r with
  | inr a => ret a
  | inl e => raise e
  end.

(** [logger.info], [logger.error] *)
Definition log (l : Level) (m : Message) : M unit := emit (EvLog l m).

(** [exporter.lookup(code=..., market=...)] *)
Definition call_lookup (env : Env) (code market : option string)
  : M (list Contract.t) :=
  emit (EvLookup code market);;
  from_sum (lookup (exporter env) code market).

(** [Market(value)]: the member that has the value; a value no member
    has is a [ValueError].  The member is kept as its value. *)
Definition Market (env : Env) (value : Z) : M Z :=
  if Market_value env value then ret value else raise ValueError.

(** [exporter.download(id, start_date=..., end_date=...,
    timeframe=Timeframe[timeframe], market=Market(market))].  The
    arguments are evaluated before the call is made: [Timeframe[...]]
    finds its member, the name having been accepted by the callback of
    the option, and [Market(...)] converts the market of the looked-up
    row.  The request shows the timeframe by its name and the market by
    its value. *)
Definition call_download (env : Env) (id : Z) (start_date end_date : datetime)
    (timeframe : string) (market : Z) : M DataFrame :=
  market <- Market env market;;
  emit (EvDownload id start_date end_date timeframe market);;
  from_sum (download (exporter env) id start_date end_date timeframe market).

(** [os.path.exists(path)] *)
Definition path_exists (path : string) : M bool := λ w,
  (Returns (match files w !! path with Some _ => true | None => false end),
   mkWorld (files w) (trace w ++ [EvExists path])).

(** [pd.read_pickle(path)] *)
Definition read_pickle (env : Env) (path : string) : M DataFrame := λ w,
  let w' := mkWorld (files w) (trace w ++ [EvReadPickle path]) in
  match files w !! path with
  | Some (Pickled df) => (Returns df, w')
  | Some f => (Raises (unpickling env path f), w')
  | None => (Raises FileNotFoundError, w')
  end.

(** A write of [f] to [path]: the library opens the path itself for
    writing and then writes the serialised frame. *)
Definition write_file (env : Env) (path : string) (f : File) : M unit :=
  match disk env path with
  | NoFault => store path f
  | OpenFails => raise OSError
  | WriteFails => store path Partial;; raise OSError
  end.

(** [data.to_csv(path, index=False, line_terminator=..., compression=...)] *)
Definition to_csv (env : Env) (path : string) (data : DataFrame)
    (line_terminator : string) (compression : option string) : M unit :=
  emit (EvToCsv path data line_terminator compression);;
  write_file env path (Text data line_terminator).

(** [data.to_pickle(path, compression=...)] *)
Definition to_pickle (env : Env) (path : string) (data : DataFrame)
    (compression : option string) : M unit :=
  emit (EvToPickle path data compression);;
  write_file env path (Pickled data).

(** [time.sleep(seconds)] *)
Definition sleep (seconds : Z) : M unit := emit (EvSleep seconds).

(** ** The script *)

(** The parameters of [main], as click hands them over. *)
Record Options := mkOptions {
  contracts : option (list string);
  market : option string;
  timeframe : string;
  destdir : string;
  lineterm : string;
  delay : Z;
  startdate : datetime;
  enddate : datetime;
  skiperr : bool;
  ext : string;
  fileformat : string;
  append : option string
}.

(** Truth value of an optional string and of an optional list. *)
Definition truthy_str (s : option string) : bool :=
  match s with
  | Some s => negb (String.eqb s "")
  | None => false
  end.

Definition truthy_list {A} (l : option (list A)) : bool :=
  match l with
  | Some (_ :: _) => true
  | _ => false
  end.

(** Line 95 *)
Definition append_flag (o : Options) : bool :=
  bool_decide (append o = Some "y").

(** Lines 111-118: look the code up and take the first row. *)
Definition resolve (env : Env) (market_filter : option string)
    (contract_code : string) : M Contract.t :=
  log INFO (Handling contract_code);;
  contracts <- try_except
      (call_lookup env (Some contract_code) market_filter)
      (λ e, if is_FinamObjectNotFoundError e
            then Some (log ERROR (UnknownContract contract_code);;
                       raise (SystemExit 1))
            else None);;
  from_option (head contracts) IndexError.

(** Lines 138-148: in append mode, the local frame and the start date
    taken from it.  Without append mode [df_local] is not bound and is
    not read afterwards; the empty frame stands for it. *)
Definition plan (env : Env) (o : Options) (destpath : string)
    (startdate : datetime) : M (DataFrame * datetime) :=
  if append_flag o then
    found <- path_exists destpath;;
    if found then
      df_local <- read_pickle env destpath;;
      row <- from_option (iloc_last df_local) IndexError;;
      let last_existing_date := astype_str (DATE row) in
      startdate <- from_option (strptime_Ymd last_existing_date) ValueError;;
      log INFO (FoundLocalFile last_existing_date);;
      ret (df_local, startdate)
    else
      log INFO AppendNoLocalFile;;
      ret ([], startdate)
  else ret ([], startdate).

(** Lines 151-164: the download; [None] is the [continue] of the
    handler. *)
Definition fetch (env : Env) (o : Options) (contract : Contract.t)
    (startdate : datetime) : M (option DataFrame) :=
  try_except
    (data <- call_download env (Contract.id contract) startdate (enddate o)
                           (timeframe o) (Contract.market contract);;
     log INFO (LinesDownloaded (shape0 data));;
     ret (Some data))
    (λ e, if is_FinamExportError e
          then Some (if skiperr o
                     then log ERROR (ErrorRepr e);; ret None
                     else raise e)
          else None).

(** Lines 166-178: write the frame, merged with the local one in append
    mode. *)
Definition persist (env : Env) (o : Options) (destpath : string)
    (compression : option string) (df_local data : DataFrame) : M unit :=
  (if String.eqb (slice3 (fileformat o)) "CSV" then
     to_csv env destpath data (lineterm o) compression
   else
     data <- (if append_flag o then
                let initial_cnt := shape0 df_local in
                let data := drop_duplicates (pd_concat df_local data) in
                let result_cnt := shape0 data in
                log INFO (RecordsAdded (result_cnt - initial_cnt) initial_cnt);;
                ret data
              else ret data);;
     if String.eqb (slice3 (fileformat o)) "PKL" then
       to_pickle env destpath data compression
     else ret ());;
  log INFO (DataSaved destpath).

(** Lines 180-182 *)
Definition pace (o : Options) : M unit :=
  if bool_decide (delay o > 0)%Z then
    log INFO (Sleeping (delay o));;
    sleep (delay o)
  else ret ().

(** Lines 111-182, the body of the loop.  [startdate] is the one local
    the body assigns that the next iteration reads; the body returns
    its value at the end of the iteration. *)
Definition handle_contract (env : Env) (o : Options)
    (market_filter : option string) (startdate : datetime)
    (contract_code : string) : M datetime :=
  contract <- resolve env market_filter contract_code;;
  log INFO (DownloadingContract contract);;
  let '(destpath, compression) :=
    destination (destdir o) (Contract.code contract) (timeframe o) (ext o)
                (fileformat o) in
  planned <- plan env o destpath startdate;;
  let '(df_local, startdate) := planned in
  fetched <- fetch env o contract startdate;;
  match fetched with
  | None => ret startdate
  | Some data =>
      persist env o destpath compression df_local data;;
      pace o;;
      ret startdate
  end.

(** [for contract_code in contracts: ...] *)
Fixpoint for_contracts (env : Env) (o : Options) (market_filter : option string)
    (startdate : datetime) (contracts : list string) : M unit :=
  match contracts with
  | [] => ret ()
  | contract_code :: rest =>
      startdate <- handle_contract env o market_filter startdate contract_code;;
      for_contracts env o market_filter startdate rest
  end.

(** Lines 104-108: the market filter and the list of codes to handle. *)
Definition select_contracts (env : Env) (o : Options)
  : M (option string * list string) :=
  if truthy_str (market o) then
    if negb (truthy_list (contracts o)) then
      found <- call_lookup env None (market o);;
      ret (market o, Contract.code <$> found)
    else ret (market o, default [] (contracts o))
  else ret (None, default [] (contracts o)).

(** [main] *)
Definition main (env : Env) (o : Options) : M unit :=
  emit EvCreated;;
  if negb (truthy_list (contracts o) || truthy_str (market o)) then
    raise (BadParameter "Neither contracts nor market is specified")
  else if truthy_str (append o) && String.eqb (slice3 (fileformat o)) "CSV" then
    raise (BadParameter "Cannot append to csv file")
  else
    selected <- select_contracts env o;;
    let '(market_filter, contracts) := selected in
    for_contracts env o market_filter (startdate o) contracts.

(** A run from a given filesystem: the outcome, the files and the
    trace. *)
Definition run (env : Env) (o : Options) (fs : gmap string File)
  : Outcome unit * World :=
  main env o (mkWorld fs []).

(** ** The vocabulary of the specification *)

(** The format table: the suffix and the compression of each format. *)
Definition suffix_of (f : Fileformat) (extension : string) : string :=
  match f with
  | CSV => "." +:+ extension
  | CSVGZ => ".csv.gz"
  | PKL => ".pkl"
  | PKLXZ => ".pkl.xz"
  end.

Definition compression_of (f : Fileformat) : option string :=
  match f with
  | CSV => None
  | CSVGZ => Some "gzip"
  | PKL => None
  | PKLXZ => Some "xz"
  end.

Definition binary_family (f : Fileformat) : bool :=
  match f with
  | PKL | PKLXZ => true
  | CSV | CSVGZ => false
  end.

(** A list with its duplicates removed, the first of equal rows kept in
    its place: the rows that do not occur before their own position. *)
Definition first_occurrences (l : DataFrame) : DataFrame :=
  omap id (imap (λ i r, if decide (r ∈ take i l) then None else Some r) l).

(** Calls to the remote service. *)
Definition is_network_call (e : Event) : bool :=
  match e with
  | EvLookup _ _ | EvDownload _ _ _ _ _ => true
  | _ => false
  end.

Definition is_download (e : Event) : bool :=
  match e with
  | EvDownload _ _ _ _ _ => true
  | _ => false
  end.

(** Calls that write a file. *)
Definition is_write (e : Event) : bool :=
  match e with
  | EvToCsv _ _ _ _ | EvToPickle _ _ _ => true
  | _ => false
  end.

(** The options with append mode left out. *)
Definition without_append (o : Options) : Options :=
  mkOptions (contracts o) (market o) (timeframe o) (destdir o) (lineterm o)
            (delay o) (startdate o) (enddate o) (skiperr o) (ext o)
            (fileformat o) None.

(** The destination path of a contract under the options. *)
Definition destpath_of (o : Options) (c : Contract.t) : string :=
  (destination (destdir o) (Contract.code c) (timeframe o) (ext o)
               (fileformat o)).1.

(** The compression that goes with it. *)
Definition compression_for (o : Options) (c : Contract.t) : option string :=
  (destination (destdir o) (Contract.code c) (timeframe o) (ext o)
               (fileformat o)).2.

(** The loop body in three parts: up to the download ([prepare]), from
    the download on ([finish]), and the two together for a resolved
    contract ([handle_resolved]). *)
Definition prepare (env : Env) (o : Options) (market_filter : option string)
    (startdate : datetime) (contract_code : string)
  : M (Contract.t * (DataFrame * datetime)) :=
  bind (resolve env market_filter contract_code) (λ contract,
  bind (log INFO (DownloadingContract contract)) (λ _,
  bind (plan env o (destpath_of o contract) startdate) (λ planned,
  ret (contract, planned)))).

Definition finish (env : Env) (o : Options) (contract : Contract.t)
    (planned : DataFrame * datetime) : M datetime :=
  bind (fetch env o contract planned.2) (λ fetched,
  match fetched with
  | None => ret planned.2
  | Some data =>
      bind (persist env o (destpath_of o contract) (compression_for o contract)
                    planned.1 data)
           (λ _, bind (pace o) (λ _, ret planned.2))
  end).

Definition handle_resolved (env : Env) (o : Options) (startdate : datetime)
    (contract : Contract.t) : M datetime :=
  bind (log INFO (DownloadingContract contract)) (λ _,
  bind (plan env o (destpath_of o contract) startdate) (finish env o contract)).

(** ** Observations on traces *)

(** [Emits Q c]: whatever the world and the outcome, [c] only appends
    events to the trace, and each of them satisfies [Q]. *)
Definition Emits {A} (Q : Event → Prop) (c : M A) : Prop :=
  ∀ w, ∃ evs, trace (c w).2 = trace w ++ evs ∧ Forall Q evs.

(** An export request, if the event is one, ends at [e]. *)
Definition download_until (e : datetime) (ev : Event) : Prop :=
  match ev with
  | EvDownload _ _ end_date _ _ => end_date = e
  | _ => True
  end.

(** The events that tell how the handling of a contract ended and
    whether the process slept: a write, the "data is saved" record, the
    record of a skipped export error, a sleep. *)
Definition is_pacing (e : Event) : bool :=
  match e with
  | EvToCsv _ _ _ _ | EvToPickle _ _ _ => true
  | EvLog _ (DataSaved _) | EvLog _ (ErrorRepr _) => true
  | EvSleep _ => true
  | _ => false
  end.

(** A paced run, seen through [is_pacing]: each contract that was
    written and reported saved is followed at once by one sleep of [d]
    seconds; a skipped contract is followed by none; a write that fails
    ends the run. *)
Inductive Paced (d : Z) : list Event → Prop :=
  | paced_end : Paced d []
  | paced_failed_write (wr : Event) :
      is_write wr = true → Paced d [wr]
  | paced_saved (wr : Event) (p : string) (rest : list Event) :
      is_write wr = true → Paced d rest →
      Paced d (wr :: EvLog INFO (DataSaved p) :: EvSleep d :: rest)
  | paced_skipped (e : Exc) (rest : list Event) :
      Paced d rest → Paced d (EvLog ERROR (ErrorRepr e) :: rest).

(** How the handling of one contract shows through [is_pacing] when it
    returns to the loop, and when it leaves it. *)
Definition step_block (d : Z) (blk : list Event) : Prop :=
  (∃ e, blk = [EvLog ERROR (ErrorRepr e)])
  ∨ (∃ wr p, is_write wr = true ∧ blk = [wr; EvLog INFO (DataSaved p); EvSleep d]).

Definition stop_block (blk : list Event) : Prop :=
  blk = [] ∨ (∃ wr, is_write wr = true ∧ blk = [wr]).

Definition is_sleep (e : Event) : bool :=
  match e with
  | EvSleep _ => true
  | _ => false
  end.

(** The remote data is the same whatever start date is asked for. *)
Definition start_date_blind (ex : Exporter) : Prop :=
  ∀ id s s' e tf m, download ex id s e tf m = download ex id s' e tf m.

(** The files after an append-mode write of [D] over [L] to [p], for a
    format that is not text. *)
Definition written_files (env : Env) (o : Options) (p : string)
    (L D : DataFrame) (fs : gmap string File) : gmap string File :=
  if String.eqb (slice3 (fileformat o)) "PKL" then
    match disk env p with
    | NoFault => <[p := Pickled (drop_duplicates (pd_concat L D))]> fs
    | OpenFails => fs
    | WriteFails => <[p := Partial]> fs
    end
  else fs.

(** What the export request for a contract comes to: the conversion of
    its market, then the answer of the service. *)
Definition export_answer (env : Env) (o : Options) (c : Contract.t)
    (start_date : datetime) : Exc + DataFrame :=
  if Market_value env (Contract.market c)
  then download (exporter env) (Contract.id c) start_date (enddate o)
                (timeframe o) (Contract.market c)
  else inl ValueError.

(** The files hold all there is to download for [code]: if the code
    resolves and its download succeeds, the destination is a pickled
    frame without repeated rows that contains every downloaded row, and
    it can be written. *)
Definition Settled (env : Env) (o : Options) (mf : option string)
    (fs : gmap string File) (code : string) : Prop :=
  ∀ c cs D,
    lookup (exporter env) (Some code) mf = inr (c :: cs) →
    export_answer env o c (startdate o) = inr D →
    String.eqb (slice3 (fileformat o)) "PKL" = true →
    ∃ M, fs !! destpath_of o c = Some (Pickled M) ∧ NoDup M ∧ D ⊆ M
         ∧ disk env (destpath_of o c) = NoFault.

(** ** Sample worlds

    A small remote service with two contracts, used to run the script on
    concrete inputs. *)

Definition row (date value : Z) : Row := mkRow (CInt date) [CInt value].

Definition AAA : Contract.t := Contract.mk 1 "AAA" 1.
Definition BBB : Contract.t := Contract.mk 2 "BBB" 1.

(** A contract the lookup returns with a market value that no member of
    the enumeration has. *)
Definition ZZZ : Contract.t := Contract.mk 3 "ZZZ" 99.

(** Lookup knows the codes AAA, BBB and ZZZ; what a download answers for
    a contract id is given by [data], whatever the dates. *)
Definition sample_exporter (data : Z → Exc + DataFrame) : Exporter :=
  mkExporter
    (λ code _,
       match code with
       | None => inr [AAA; BBB]
       | Some c =>
           if String.eqb c "AAA" then inr [AAA]
           else if String.eqb c "BBB" then inr [BBB]
           else if String.eqb c "ZZZ" then inr [ZZZ]
           else inl FinamObjectNotFoundError
       end)
    (λ id _ _ _ _, data id).

(** The sample enumeration has the values 1 and 14. *)
Definition sample_markets (value : Z) : bool :=
  bool_decide (value = 1 ∨ value = 14)%Z.

(** What is left of a failed write is an empty file; text is no pickle,
    and no xz stream where the suffix asks for one. *)
Definition sample_unpickling (path : string) (f : File) : Exc :=
  match f with
  | Partial => EOFError
  | _ => if String.prefix "zx." (String.rev path) then LZMAError
         else UnpicklingError
  end.

Definition sample_env_on (data : Z → Exc + DataFrame) (disk : string → Fault)
  : Env :=
  mkEnv (sample_exporter data) disk sample_markets sample_unpickling.

Definition sample_env (data : Z → Exc + DataFrame) : Env :=
  sample_env_on data (λ _, NoFault).

(** Options for a daily download into [/data] between 2020-01-01 and
    2020-01-05, one second apart. *)
Definition CRLF : string :=
  String (ascii_of_nat 13) (String (ascii_of_nat 10) "").

Definition sample_options (contracts : option (list string))
    (market : option string) (skiperr : bool) (fileformat : string)
    (append : option string) : Options :=
  mkOptions contracts market "DAILY" "/data" CRLF 1
            (mkDate 2020 1 1) (mkDate 2020 1 5) skiperr "csv" fileformat append.

Definition three_days : DataFrame :=
  [row 20200103 5; row 20200104 6; row 20200105 7].

Definition with_delay (d : Z) (o : Options) : Options :=
  mkOptions (contracts o) (market o) (timeframe o) (destdir o) (lineterm o)
            d (startdate o) (enddate o) (skiperr o) (ext o) (fileformat o)
            (append o).

(** A disk on which the write to the file of AAA fails midway. *)
Definition failing_disk (path : string) : Fault :=
  if String.eqb path "/data/AAA-DAILY.pkl" then WriteFails else NoFault.

Definition two_days : DataFrame := [row 20200102 4; row 20200103 5].

(** A service on which the export of contract 1 fails. *)
Definition failing_AAA (id : Z) : Exc + DataFrame :=
  if bool_decide (id = 1%Z) then inl (FinamExportError "throttled")
  else inr three_days.

Definition repeated_day : DataFrame :=
  [row 20200103 5; row 20200103 5; row 20200104 6].

(** ** The option callback [_arg_split] *)

(** [s.split(sep)] for a separator that is not empty: the pieces of [s]
    between the occurrences of [sep], found from the left.  [skip]
    counts the characters of an occurrence still to be passed over. *)
Fixpoint split_from (sep : string) (skip : nat) (s : string) : list string :=
  match s with
  | "" => [""]
  | String c rest =>
      match skip with
      | S k => split_from sep k rest
      | O =>
          if String.prefix sep s
          then "" :: split_from sep (String.length sep - 1) rest
          else match split_from sep 0 rest with
               | piece :: pieces => String c piece :: pieces
               | [] => [String c ""]
               end
      end
  end.

(** [s.split(sep)]; an empty separator is a [ValueError]. *)
Definition str_split (sep s : string) : Exc + list string :=
  match sep with
  | "" => inl ValueError
  | _ => inr (split_from sep 0 s)
  end.

(** [sep.join(items)] *)
Fixpoint str_join (sep : string) (items : list string) : string :=
  match items with
  | [] => ""
  | [item] => item
  | item :: rest => item +:+ sep +:+ str_join sep rest
  end.

(** Lines 30-39: the callback of [--contracts].  [param] stands for the
    text the message shows for the option. *)
Definition _arg_split (param : string) (value : option string)
  : Exc + option (list string) :=
  match value with
  | None => inr None
  | Some value =>
      match str_split "," value with
      | inr items => inr (Some items)
      | inl ValueError =>
          inl (BadParameter ("comma-separated " +:+ param +:+
                             " is required, got " +:+ value))
      | inl e => inl e
      end
  end.

(** The number of commas of a text. *)
Fixpoint commas (s : string) : nat :=
  match s with
  | "" => 0
  | String c rest => (if Ascii.eqb c "," then 1 else 0) + commas rest
  end.

(** ** More observations on traces *)

Definition is_lookup (e : Event) : bool :=
  match e with
  | EvLookup _ _ => true
  | _ => false
  end.

(** Reads of the local files. *)
Definition is_probe (e : Event) : bool :=
  match e with
  | EvExists _ | EvReadPickle _ => true
  | _ => false
  end.

(** An event of a run without append mode: an export request asks for
    the requested dates and no local file is looked at. *)
Definition as_requested (o : Options) (e : Event) : Prop :=
  match e with
  | EvDownload _ start_date end_date _ _ =>
      start_date = startdate o ∧ end_date = enddate o
  | EvExists _ | EvReadPickle _ => False
  | _ => True
  end.

(** What a completed write of [data] leaves at the destination, and the
    call that makes it, by the family of the format. *)
Definition written_as (o : Options) (f : Fileformat) (data : DataFrame) : File :=
  if binary_family f then Pickled data else Text data (lineterm o).

Definition write_call (o : Options) (f : Fileformat) (path : string)
    (data : DataFrame) (compression : option string) : Event :=
  if binary_family f then EvToPickle path data compression
  else EvToCsv path data (lineterm o) compression.

(** The exception the append branch raises on a local file it cannot
    resume from, if any: at a file that is not a pickled frame, the
    exception of the reader; [IndexError] at a frame without rows;
    [ValueError] at a last row whose date does not read as [%Y%m%d]. *)
Definition resume_error (env : Env) (path : string) (f : File) : option Exc :=
  match f with
  | Pickled L =>
      match iloc_last L with
      | None => Some IndexError
      | Some r =>
          match strptime_Ymd (astype_str (DATE r)) with
          | None => Some ValueError
          | Some _ => None
          end
      end
  | _ => Some (unpickling env path f)
  end.

(** The files [fs'] differ from [fs] at destination paths only, and no
    file of [fs] is missing from them. *)
Definition only_destinations_change (o : Options)
    (fs fs' : gmap string File) : Prop :=
  (∀ q, is_Some (fs !! q) → is_Some (fs' !! q))
  ∧ (∀ q, (∀ c, q ≠ destpath_of o c) → fs' !! q = fs !! q).

(** The seconds slept over a trace, and the contracts reported saved. *)
Fixpoint sleep_seconds (tr : list Event) : Z :=
  match tr with
  | [] => 0
  | EvSleep s :: rest => s + sleep_seconds rest
  | _ :: rest => sleep_seconds rest
  end.

Fixpoint saved_count (tr : list Event) : Z :=
  match tr with
  | [] => 0
  | EvLog _ (DataSaved _) :: rest => 1 + saved_count rest
  | _ :: rest => saved_count rest
  end.

(** ** Properties *)

Lemma append_assoc (a b c : string) : (a +:+ b) +:+ c = a +:+ b +:+ c.
Proof.
  induction a as [|x a IH]; [reflexivity|].
  change (String x ((a +:+ b) +:+ c) = String x (a +:+ b +:+ c)).
  by rewrite IH.
Qed.

Lemma prefix_slash_code (code rest : string) :
  String.prefix "/" code = false →
  String.prefix "/" (code +:+ "-" +:+ rest) = false.
Proof.
  destruct code as [|a code]; [reflexivity|]. intros H.
  change (String a code +:+ "-" +:+ rest) with (String a (code +:+ "-" +:+ rest)).
  cbn -[ascii_dec] in *. destruct (ascii_dec _ a); [|done].
  by destruct code.
Qed.

Lemma os_path_join_plain (a b : string) :
  a ≠ "" → String.prefix "/" (String.rev a) = false →
  String.prefix "/" b = false →
  os_path_join a b = a +:+ "/" +:+ b.
Proof.
  intros Ha Hend Hb. unfold os_path_join. rewrite Hb, Hend.
  rewrite bool_decide_eq_false_2 by done. reflexivity.
Qed.

(** C6.  The destination is a function of the directory, the code, the
    timeframe, the extension and the format alone: the name
    [{code}-{timeframe}] joined to the directory, followed by the suffix
    of the format table, with the compression of the table.  For a
    directory that does not end in a slash and a code that does not start
    with one this is [destdir/{code}-{timeframe}{suffix}]. *)
Theorem destination_follows_table
    (destdir code timeframe ext : string) (f : Fileformat) :
  destination destdir code timeframe ext (Fileformat_name f)
  = (os_path_join destdir (code +:+ "-" +:+ timeframe) +:+ suffix_of f ext,
     compression_of f)
  ∧ (destdir ≠ "" →
     String.prefix "/" (String.rev destdir) = false →
     String.prefix "/" code = false →
     (destination destdir code timeframe ext (Fileformat_name f)).1
     = destdir +:+ "/" +:+ code +:+ "-" +:+ timeframe +:+ suffix_of f ext).
Proof.
  assert (Htable : destination destdir code timeframe ext (Fileformat_name f)
    = (os_path_join destdir (code +:+ "-" +:+ timeframe) +:+ suffix_of f ext,
       compression_of f)).
  { destruct f; reflexivity. }
  split; [exact Htable|].
  intros Hne Hend Hcode. rewrite Htable. simpl.
  rewrite os_path_join_plain by auto using prefix_slash_code.
  by rewrite !append_assoc.
Qed.

Lemma destination_follows_table_witness :
  destination "/data" "AAA" "DAILY" "csv" (Fileformat_name PKLXZ)
  = ("/data/AAA-DAILY.pkl.xz", Some "xz")
  ∧ (destination "/data" "AAA" "DAILY" "csv" (Fileformat_name PKLXZ)).1
    = "/data/AAA-DAILY.pkl.xz".
Proof.
  pose proof (destination_follows_table "/data" "AAA" "DAILY" "csv" PKLXZ)
    as [Htable Hplain].
  split; [exact Htable|].
  apply Hplain; [done | reflexivity | reflexivity].
Defined.

(** *** Validation of the options *)

Lemma slice3_csv_family (f : Fileformat) :
  String.eqb (slice3 (Fileformat_name f)) "CSV" = negb (binary_family f).
Proof. by destruct f. Qed.

Lemma slice3_pkl_family (f : Fileformat) :
  String.eqb (slice3 (Fileformat_name f)) "PKL" = binary_family f.
Proof. by destruct f. Qed.

(** A run whose options pass both checks goes on to select and handle
    the contracts. *)
Lemma main_goes_on (env : Env) (o : Options) (fs : gmap string File) :
  truthy_list (contracts o) || truthy_str (market o) = true →
  truthy_str (append o) && String.eqb (slice3 (fileformat o)) "CSV" = false →
  run env o fs
  = bind (select_contracts env o)
         (λ selected, for_contracts env o selected.1 (startdate o) selected.2)
         (mkWorld fs [EvCreated]).
Proof.
  intros Hany Hcsv. unfold run, main, bind, emit. simpl.
  rewrite Hany, Hcsv. simpl.
  destruct (select_contracts env o _) as [[[mf cs]|e] w]; reflexivity.
Qed.

(** C4, as the script has it.  With neither a contract list nor a market
    the run is rejected right after the exporter object is made: no
    lookup and no download.  With at least one of them (and no clash of
    a text format with the append option) the run goes on to select and
    handle the contracts; with both, the listed codes are handled and
    each is looked up within the market. *)
Theorem rejected_when_neither_given (env : Env) (o : Options)
    (fs : gmap string File) :
  (truthy_list (contracts o) = false → truthy_str (market o) = false →
   run env o fs
   = (Raises (BadParameter "Neither contracts nor market is specified"),
      mkWorld fs [EvCreated]))
  ∧ (truthy_list (contracts o) || truthy_str (market o) = true →
     truthy_str (append o) && String.eqb (slice3 (fileformat o)) "CSV" = false →
     run env o fs
     = bind (select_contracts env o)
            (λ selected, for_contracts env o selected.1 (startdate o) selected.2)
            (mkWorld fs [EvCreated]))
  ∧ (truthy_list (contracts o) = true → truthy_str (market o) = true →
     select_contracts env o = ret (market o, default [] (contracts o))).
Proof.
  split; [|split].
  - intros Hc Hm. unfold run, main, bind, emit. simpl. by rewrite Hc, Hm.
  - apply main_goes_on.
  - intros Hc Hm. unfold select_contracts. by rewrite Hm, Hc.
Qed.

Lemma rejected_when_neither_given_witness :
  run (sample_env (λ _, inr three_days))
      (sample_options None None true "PKL" None) ∅
  = (Raises (BadParameter "Neither contracts nor market is specified"),
     mkWorld ∅ [EvCreated])
  ∧ run (sample_env (λ _, inr three_days))
        (sample_options (Some ["AAA"]) (Some "SHARES") true "PKL" None) ∅
    = for_contracts (sample_env (λ _, inr three_days))
        (sample_options (Some ["AAA"]) (Some "SHARES") true "PKL" None)
        (Some "SHARES") (mkDate 2020 1 1) ["AAA"] (mkWorld ∅ [EvCreated]).
Proof.
  split.
  - apply (rejected_when_neither_given
             (sample_env (λ _, inr three_days))
             (sample_options None None true "PKL" None) ∅); reflexivity.
  - pose proof (rejected_when_neither_given
             (sample_env (λ _, inr three_days))
             (sample_options (Some ["AAA"]) (Some "SHARES") true "PKL" None) ∅)
      as (_ & Hgo & Hsel).
    rewrite Hgo by reflexivity. rewrite Hsel by reflexivity. reflexivity.
Defined.

(** C4 as stated fails: with both a contract list and a market the run
    is not rejected; AAA is looked up within the market, downloaded and
    written. *)
Lemma both_given_not_rejected :
  let o := sample_options (Some ["AAA"]) (Some "SHARES") true "PKL" None in
  let r := run (sample_env (λ _, inr three_days)) o ∅ in
  truthy_list (contracts o) = true ∧ truthy_str (market o) = true ∧
  r.1 = Returns () ∧
  filter is_network_call (trace r.2)
  = [EvLookup (Some "AAA") (Some "SHARES");
     EvDownload 1 (mkDate 2020 1 1) (mkDate 2020 1 5) "DAILY" 1] ∧
  files r.2 !! "/data/AAA-DAILY.pkl" = Some (Pickled three_days).
Proof. vm_compute. done. Qed.

(** C9, as the script has it.  When a contract list or a market is
    given, a text format together with any value of the append option,
    [n] included, is rejected before any lookup or download; with the
    option left out the run goes on. *)
Theorem text_format_with_append_option (env : Env) (o : Options)
    (fs : gmap string File) (f : Fileformat) :
  truthy_list (contracts o) || truthy_str (market o) = true →
  fileformat o = Fileformat_name f →
  binary_family f = false →
  (∀ a, append o = Some a → a ≠ "" →
     run env o fs
     = (Raises (BadParameter "Cannot append to csv file"),
        mkWorld fs [EvCreated]))
  ∧ (append o = None →
     run env o fs
     = bind (select_contracts env o)
            (λ selected, for_contracts env o selected.1 (startdate o) selected.2)
            (mkWorld fs [EvCreated])).
Proof.
  intros Hany Hf Hfam. split.
  - intros a Ha Hne. unfold run, main, bind, emit. simpl.
    rewrite Hany, Ha, Hf, slice3_csv_family, Hfam. simpl.
    destruct (String.eqb_spec a ""); [done|reflexivity].
  - intros Ha. apply main_goes_on; [done|]. by rewrite Ha.
Qed.

Lemma text_format_with_append_option_witness :
  let env := sample_env (λ _, inr three_days) in
  run env (sample_options (Some ["AAA"]) None true "CSV" (Some "n")) ∅
  = (Raises (BadParameter "Cannot append to csv file"), mkWorld ∅ [EvCreated])
  ∧ (run env (sample_options (Some ["AAA"]) None true "CSV" None) ∅).1
    = Returns ().
Proof.
  intros env. split.
  - apply (proj1 (text_format_with_append_option env
             (sample_options (Some ["AAA"]) None true "CSV" (Some "n")) ∅ CSV
             eq_refl eq_refl eq_refl)) with "n"; [reflexivity|done].
  - rewrite (proj2 (text_format_with_append_option env
             (sample_options (Some ["AAA"]) None true "CSV" None) ∅ CSV
             eq_refl eq_refl eq_refl) eq_refl).
    vm_compute. reflexivity.
Defined.

(** C9 as stated fails: a text format with the append option given, but
    neither a contract list nor a market, is rejected by the first check
    and with its message. *)
Lemma append_option_without_contracts :
  let o := sample_options None None true "CSV" (Some "n") in
  let r := run (sample_env (λ _, inr three_days)) o ∅ in
  slice3 (fileformat o) = "CSV" ∧ append o = Some "n"
  ∧ r = (Raises (BadParameter "Neither contracts nor market is specified"),
         mkWorld ∅ [EvCreated])
  ∧ r.1 ≠ Raises (BadParameter "Cannot append to csv file").
Proof. repeat split; done. Qed.

(** *** Removing duplicate rows *)

Lemma elem_of_drop_duplicates_from (seen l : list Row) (x : Row) :
  x ∈ drop_duplicates_from seen l ↔ x ∈ l ∧ x ∉ seen.
Proof.
  revert seen. induction l as [|r l IH]; intros seen; simpl.
  - set_solver.
  - case_decide as Hr.
    + rewrite IH. set_solver.
    + rewrite elem_of_cons, IH. 
      destruct (decide (x = r)) as [->|]; set_solver.
Qed.

Lemma NoDup_drop_duplicates_from (seen l : list Row) :
  NoDup (drop_duplicates_from seen l).
Proof.
  revert seen. induction l as [|r l IH]; intros seen; simpl.
  - constructor.
  - case_decide; [apply IH|].
    constructor; [|apply IH].
    rewrite elem_of_drop_duplicates_from. set_solver.
Qed.

Lemma drop_duplicates_from_ext (s1 s2 l : list Row) :
  (∀ x, x ∈ s1 ↔ x ∈ s2) →
  drop_duplicates_from s1 l = drop_duplicates_from s2 l.
Proof.
  revert s1 s2. induction l as [|r l IH]; intros s1 s2 Hs; simpl; [done|].
  rewrite (decide_ext (r ∈ s1) (r ∈ s2)) by apply Hs. case_decide.
  - by apply IH.
  - f_equal. apply IH. set_solver.
Qed.

Lemma length_drop_duplicates_from (seen l : list Row) :
  length (drop_duplicates_from seen l) ≤ length l.
Proof.
  revert seen. induction l as [|r l IH]; intros seen; simpl; [lia|].
  case_decide; [specialize (IH seen)|specialize (IH (r :: seen))]; simpl; lia.
Qed.

Lemma drop_duplicates_from_app (seen a b : list Row) :
  drop_duplicates_from seen (a ++ b)
  = drop_duplicates_from seen a ++ drop_duplicates_from (a ++ seen) b.
Proof.
  revert seen. induction a as [|r a IH]; intros seen; simpl; [done|].
  case_decide.
  - rewrite IH. f_equal. apply drop_duplicates_from_ext. set_solver.
  - rewrite IH. simpl. do 2 f_equal. apply drop_duplicates_from_ext. set_solver.
Qed.

Lemma drop_duplicates_from_seen (seen l : list Row) :
  l ⊆ seen → drop_duplicates_from seen l = [].
Proof.
  induction l as [|r l IH]; intros Hl; simpl; [done|].
  rewrite decide_True by set_solver. apply IH. set_solver.
Qed.

Lemma drop_duplicates_from_NoDup (seen l : list Row) :
  NoDup l → (∀ x, x ∈ l → x ∉ seen) → drop_duplicates_from seen l = l.
Proof.
  intros Hnd. revert seen. induction Hnd as [|r l Hr Hnd IH]; intros seen Hs; simpl; [done|].
  rewrite decide_False by set_solver. f_equal. apply IH. set_solver.
Qed.

Lemma drop_duplicates_first_occurrences_from (seen l : list Row) :
  drop_duplicates_from seen l
  = omap id (imap (λ i r, if decide (r ∈ seen ++ take i l) then None else Some r) l).
Proof.
  revert seen. induction l as [|r l IH]; intros seen; [done|].
  cbn [drop_duplicates_from imap omap take]. rewrite app_nil_r.
  case_decide as Hr; simpl.
  - rewrite IH. f_equal. apply imap_ext. intros i x _. simpl.
    apply decide_ext. set_solver.
  - f_equal. rewrite IH. f_equal. apply imap_ext. intros i x _. simpl.
    apply decide_ext. set_solver.
Qed.

Lemma drop_duplicates_first_occurrences (l : list Row) :
  drop_duplicates l = first_occurrences l.
Proof. apply drop_duplicates_first_occurrences_from. Qed.

Lemma drop_duplicates_merge_again (L D : list Row) :
  drop_duplicates (pd_concat (drop_duplicates (pd_concat L D)) D)
  = drop_duplicates (pd_concat L D).
Proof.
  unfold drop_duplicates, pd_concat.
  rewrite (drop_duplicates_from_app [] (drop_duplicates_from [] (L ++ D)) D).
  rewrite (drop_duplicates_from_NoDup [] (drop_duplicates_from [] (L ++ D))).
  - rewrite (drop_duplicates_from_seen (drop_duplicates_from [] (L ++ D) ++ []) D).
    + apply app_nil_r.
    + intros x Hx. rewrite app_nil_r, elem_of_drop_duplicates_from. set_solver.
  - apply NoDup_drop_duplicates_from.
  - intros x _. apply not_elem_of_nil.
Qed.

(** *** Running the parts of the loop body *)

Lemma resolve_found (env : Env) (mf : option string) (code : string)
    (c : Contract.t) (cs : list Contract.t) (w : World) :
  lookup (exporter env) (Some code) mf = inr (c :: cs) →
  resolve env mf code w
  = (Returns c, mkWorld (files w)
       (trace w ++ [EvLog INFO (Handling code); EvLookup (Some code) mf])).
Proof.
  intros Hl. unfold resolve, try_except, bind, call_lookup, log, emit, bind. simpl.
  rewrite Hl. simpl. by rewrite <- app_assoc.
Qed.

Lemma plan_existing (env : Env) (o : Options) (p : string) (sd d : datetime) (L : DataFrame) (r : Row) (w : World) :
  append_flag o = true →
  files w !! p = Some (Pickled L) →
  iloc_last L = Some r →
  strptime_Ymd (astype_str (DATE r)) = Some d →
  plan env o p sd w
  = (Returns (L, d), mkWorld (files w)
       (trace w ++ [EvExists p; EvReadPickle p; EvLog INFO (FoundLocalFile (astype_str (DATE r)))])).
Proof.
  intros Ha Hf Hl Hd. unfold plan. rewrite Ha.
  unfold bind, path_exists, read_pickle, log, emit. simpl.
  rewrite Hf. simpl. rewrite Hf. rewrite Hl. simpl. rewrite Hd. simpl.
  by rewrite <- !app_assoc.
Qed.

Lemma plan_fresh (env : Env) (o : Options) (p : string) (sd : datetime) (w : World) :
  append_flag o = true →
  files w !! p = None →
  plan env o p sd w
  = (Returns ([], sd), mkWorld (files w)
       (trace w ++ [EvExists p; EvLog INFO AppendNoLocalFile])).
Proof.
  intros Ha Hf. unfold plan. rewrite Ha.
  unfold bind, path_exists, log, emit. simpl. rewrite Hf. simpl.
  by rewrite <- !app_assoc.
Qed.

Lemma plan_off (env : Env) (o : Options) (p : string) (sd : datetime) (w : World) :
  append_flag o = false → plan env o p sd w = (Returns ([], sd), w).
Proof. intros Ha. unfold plan. by rewrite Ha. Qed.

Lemma fetch_downloaded (env : Env) (o : Options) (c : Contract.t)
    (sd : datetime) (D : DataFrame) (w : World) :
  Market_value env (Contract.market c) = true →
  download (exporter env) (Contract.id c) sd (enddate o) (timeframe o)
           (Contract.market c) = inr D →
  fetch env o c sd w
  = (Returns (Some D), mkWorld (files w)
       (trace w ++ [EvDownload (Contract.id c) sd (enddate o) (timeframe o)
                               (Contract.market c);
                    EvLog INFO (LinesDownloaded (shape0 D))])).
Proof.
  intros Hm Hd.
  unfold fetch, try_except, bind, call_download, Market, log, emit, bind.
  rewrite Hm. simpl. rewrite Hd. simpl. by rewrite <- !app_assoc.
Qed.

Lemma fetch_failed (env : Env) (o : Options) (c : Contract.t)
    (sd : datetime) (e : Exc) (w : World) :
  Market_value env (Contract.market c) = true →
  download (exporter env) (Contract.id c) sd (enddate o) (timeframe o)
           (Contract.market c) = inl e →
  is_FinamExportError e = true →
  fetch env o c sd w
  = if skiperr o
    then (Returns None, mkWorld (files w)
            (trace w ++ [EvDownload (Contract.id c) sd (enddate o)
                                    (timeframe o) (Contract.market c);
                         EvLog ERROR (ErrorRepr e)]))
    else (Raises e, mkWorld (files w)
            (trace w ++ [EvDownload (Contract.id c) sd (enddate o)
                                    (timeframe o) (Contract.market c)])).
Proof.
  intros Hm Hd He.
  unfold fetch, try_except, bind, call_download, Market, log, emit, bind.
  rewrite Hm. simpl. rewrite Hd. simpl. rewrite He.
  destruct (skiperr o); simpl; [by rewrite <- !app_assoc|done].
Qed.

Lemma persist_merged (env : Env) (o : Options) (p : string)
    (c : option string) (L D : DataFrame) (w : World) (f : Fileformat) :
  fileformat o = Fileformat_name f → binary_family f = true →
  append_flag o = true → disk env p = NoFault →
  persist env o p c L D w
  = (Returns (),
     mkWorld (<[p := Pickled (drop_duplicates (pd_concat L D))]> (files w))
       (trace w ++
        [EvLog INFO (RecordsAdded
           (shape0 (drop_duplicates (pd_concat L D)) - shape0 L) (shape0 L));
         EvToPickle p (drop_duplicates (pd_concat L D)) c;
         EvLog INFO (DataSaved p)])).
Proof.
  intros Hf Hb Ha Hd. unfold persist.
  rewrite Hf, slice3_csv_family, slice3_pkl_family, Hb, Ha. simpl.
  unfold bind, to_pickle, write_file, log, emit, store, bind. simpl.
  rewrite Hd. simpl. by rewrite <- !app_assoc.
Qed.

Lemma persist_plain (env : Env) (o : Options) (p : string)
    (c : option string) (L D : DataFrame) (w : World) (f : Fileformat) :
  fileformat o = Fileformat_name f → binary_family f = true →
  append_flag o = false → disk env p = NoFault →
  persist env o p c L D w
  = (Returns (),
     mkWorld (<[p := Pickled D]> (files w))
       (trace w ++ [EvToPickle p D c; EvLog INFO (DataSaved p)])).
Proof.
  intros Hf Hb Ha Hd. unfold persist.
  rewrite Hf, slice3_csv_family, slice3_pkl_family, Hb, Ha. simpl.
  unfold bind, to_pickle, write_file, log, emit, store, bind, ret. simpl.
  rewrite Hd. simpl. by rewrite <- !app_assoc.
Qed.

Lemma pace_run (o : Options) (w : World) :
  pace o w
  = (Returns (),
     mkWorld (files w)
       (trace w ++ if bool_decide (delay o > 0)%Z
                   then [EvLog INFO (Sleeping (delay o)); EvSleep (delay o)]
                   else [])).
Proof.
  unfold pace. case_bool_decide.
  - unfold bind, log, sleep, emit. simpl. by rewrite <- !app_assoc.
  - unfold ret. destruct w. simpl. by rewrite app_nil_r.
Qed.

Lemma handle_contract_resolved (env : Env) (o : Options) (mf : option string)
    (sd : datetime) (code : string) (w : World) :
  handle_contract env o mf sd code w
  = bind (resolve env mf code) (handle_resolved env o sd) w.
Proof.
  unfold handle_contract, handle_resolved, finish, destpath_of,
    compression_for, bind.
  destruct (resolve env mf code w) as [[c|e] w1]; [|done].
  destruct (log INFO (DownloadingContract c) w1) as [[[]|e] w2]; [|done].
  destruct (destination _ _ _ _ _) as [p z]. simpl.
  destruct (plan env o p sd w2) as [[[L d]|e] w3]; [|done]. simpl.
  destruct (fetch env o c d w3) as [[[D|]|e] w4]; done.
Qed.

Lemma handle_contract_prepare (env : Env) (o : Options) (mf : option string)
    (sd : datetime) (code : string) (w : World) :
  handle_contract env o mf sd code w
  = bind (prepare env o mf sd code) (λ cp, finish env o cp.1 cp.2) w.
Proof.
  rewrite handle_contract_resolved. unfold prepare, handle_resolved, bind.
  destruct (resolve env mf code w) as [[c|e] w1]; [|done].
  destruct (log INFO (DownloadingContract c) w1) as [[[]|e] w2]; [|done].
  destruct (plan env o _ sd w2) as [[pl|e] w3]; done.
Qed.

Lemma handle_contract_appended (env : Env) (o : Options) (mf : option string)
    (sd d : datetime) (code : string) (c : Contract.t) (cs : list Contract.t)
    (L D : DataFrame) (r : Row) (f : Fileformat) (w : World) :
  fileformat o = Fileformat_name f → binary_family f = true →
  append_flag o = true →
  lookup (exporter env) (Some code) mf = inr (c :: cs) →
  files w !! destpath_of o c = Some (Pickled L) →
  iloc_last L = Some r →
  strptime_Ymd (astype_str (DATE r)) = Some d →
  Market_value env (Contract.market c) = true →
  download (exporter env) (Contract.id c) d (enddate o) (timeframe o)
           (Contract.market c) = inr D →
  disk env (destpath_of o c) = NoFault →
  handle_contract env o mf sd code w
  = (Returns d,
     mkWorld (<[destpath_of o c := Pickled (drop_duplicates (pd_concat L D))]> (files w))
       (trace w ++
        [EvLog INFO (Handling code); EvLookup (Some code) mf;
         EvLog INFO (DownloadingContract c);
         EvExists (destpath_of o c); EvReadPickle (destpath_of o c);
         EvLog INFO (FoundLocalFile (astype_str (DATE r)));
         EvDownload (Contract.id c) d (enddate o) (timeframe o) (Contract.market c);
         EvLog INFO (LinesDownloaded (shape0 D));
         EvLog INFO (RecordsAdded
           (shape0 (drop_duplicates (pd_concat L D)) - shape0 L) (shape0 L));
         EvToPickle (destpath_of o c) (drop_duplicates (pd_concat L D))
                    (compression_for o c);
         EvLog INFO (DataSaved (destpath_of o c))] ++
        (if bool_decide (delay o > 0)%Z
         then [EvLog INFO (Sleeping (delay o)); EvSleep (delay o)]
         else []))).
Proof.
  intros Hf Hb Ha Hl Hfile Hlast Hdate Hm Hd Hdisk.
  rewrite handle_contract_resolved. unfold bind at 1.
  rewrite (resolve_found env mf code c cs w Hl).
  unfold handle_resolved. unfold bind at 1. unfold log at 1, emit. simpl.
  unfold bind at 1.
  erewrite plan_existing by eauto. simpl.
  unfold finish. unfold bind at 1. erewrite fetch_downloaded by eauto. simpl.
  unfold bind at 1. erewrite persist_merged by eauto. simpl.
  unfold bind at 1. rewrite pace_run. simpl. unfold ret.
  by rewrite <- !app_assoc.
Qed.

(** *** What a computation adds to the trace *)

Create HintDb emits discriminated.

Lemma emits_ret {A} Q (a : A) : Emits Q (ret a).
Proof. intros w. exists []. by rewrite app_nil_r. Qed.

Lemma emits_raise {A} Q (e : Exc) : Emits Q (raise (A:=A) e).
Proof. intros w. exists []. by rewrite app_nil_r. Qed.

Lemma emits_emit (Q : Event → Prop) (e : Event) : Q e → Emits Q (emit e).
Proof. intros He w. exists [e]. split; [done|]. by constructor. Qed.

Lemma emits_store Q (p : string) (f : File) : Emits Q (store p f).
Proof. intros w. exists []. by rewrite app_nil_r. Qed.

Lemma emits_bind {A B} Q (c : M A) (k : A → M B) :
  Emits Q c → (∀ a, Emits Q (k a)) → Emits Q (bind c k).
Proof.
  intros Hc Hk w. unfold bind. destruct (Hc w) as (evs & Ht & HQ).
  destruct (c w) as [[a|e] w1]; simpl in *; [|by eauto].
  destruct (Hk a w1) as (evs' & Ht' & HQ').
  exists (evs ++ evs'). rewrite Ht', Ht, app_assoc. split; [done|].
  by apply Forall_app.
Qed.

Lemma emits_try_except {A} Q (c : M A) (h : Exc → option (M A)) :
  Emits Q c → (∀ e k, h e = Some k → Emits Q k) → Emits Q (try_except c h).
Proof.
  intros Hc Hh w. unfold try_except. destruct (Hc w) as (evs & Ht & HQ).
  destruct (c w) as [[a|e] w1]; simpl in *; [by eauto|].
  destruct (h e) as [k|] eqn:He; [|by eauto].
  destruct (Hh e k He w1) as (evs' & Ht' & HQ').
  exists (evs ++ evs'). rewrite Ht', Ht, app_assoc. split; [done|].
  by apply Forall_app.
Qed.

Lemma emits_from_option {A} Q (x : option A) (e : Exc) : Emits Q (from_option x e).
Proof. destruct x; [apply emits_ret|apply emits_raise]. Qed.

Lemma emits_from_sum {A} Q (x : Exc + A) : Emits Q (from_sum x).
Proof. destruct x; [apply emits_raise|apply emits_ret]. Qed.

Lemma emits_path_exists (Q : Event → Prop) (p : string) :
  Q (EvExists p) → Emits Q (path_exists p).
Proof. intros He w. exists [EvExists p]. split; [done|]. by constructor. Qed.

Lemma emits_read_pickle (Q : Event → Prop) (env : Env) (p : string) :
  Q (EvReadPickle p) → Emits Q (read_pickle env p).
Proof.
  intros He w. exists [EvReadPickle p]. split; [|by constructor].
  unfold read_pickle. by repeat case_match.
Qed.

#[export] Hint Resolve emits_ret emits_raise emits_emit emits_store emits_bind
  emits_from_option emits_from_sum emits_path_exists emits_read_pickle : emits.

Lemma emits_write_file Q (env : Env) (p : string) (f : File) :
  Emits Q (write_file env p f).
Proof. unfold write_file. destruct (disk env p); auto with emits. Qed.

Ltac emits :=
  repeat first
    [ apply emits_bind; [|intros]
    | apply emits_try_except; [|intros ? ? ?; repeat case_match; simplify_eq]
    | apply emits_ret | apply emits_raise | apply emits_store
    | apply emits_from_option | apply emits_from_sum
    | apply emits_write_file
    | apply emits_emit | apply emits_path_exists | apply emits_read_pickle
    | case_match ].

Section emits_script.
Context (Q : Event → Prop) (env : Env) (o : Options).
Hypothesis Q_log : ∀ l m, Q (EvLog l m).
Hypothesis Q_lookup : ∀ code mf, Q (EvLookup code mf).
Hypothesis Q_exists : ∀ p, Q (EvExists p).
Hypothesis Q_read : ∀ p, Q (EvReadPickle p).
Hypothesis Q_download : ∀ i s tf m, Q (EvDownload i s (enddate o) tf m).
Hypothesis Q_csv : ∀ p df lt c, Q (EvToCsv p df lt c).
Hypothesis Q_pickle : ∀ p df c, Q (EvToPickle p df c).
Hypothesis Q_sleep : (delay o > 0)%Z → Q (EvSleep (delay o)).
Hypothesis Q_created : Q EvCreated.

Lemma emits_resolve mf code : Emits Q (resolve env mf code).
Proof using Q_log Q_lookup.
  unfold resolve, call_lookup, log. emits; auto.
Qed.

Lemma emits_plan p sd : Emits Q (plan env o p sd).
Proof using Q_log Q_exists Q_read. unfold plan, log. emits; auto. Qed.

Lemma emits_fetch c sd : Emits Q (fetch env o c sd).
Proof using Q_log Q_download.
  unfold fetch, call_download, Market, log. emits; auto.
Qed.

Lemma emits_persist p c L D : Emits Q (persist env o p c L D).
Proof using Q_log Q_csv Q_pickle.
  unfold persist, to_csv, to_pickle, log. emits; auto.
Qed.

Lemma emits_pace : Emits Q (pace o).
Proof using Q_log Q_sleep.
  unfold pace, sleep, log. case_bool_decide; emits; auto.
Qed.

Lemma emits_handle_contract mf sd code :
  Emits Q (handle_contract env o mf sd code).
Proof using Q_log Q_lookup Q_exists Q_read Q_download Q_csv Q_pickle Q_sleep.
  unfold handle_contract.
  apply emits_bind; [apply emits_resolve|intros c].
  apply emits_bind; [by apply emits_emit|intros _].
  destruct (destination _ _ _ _ _) as [p z].
  apply emits_bind; [apply emits_plan|intros [L d]].
  apply emits_bind; [apply emits_fetch|intros [D|]]; [|apply emits_ret].
  apply emits_bind; [apply emits_persist|intros _].
  apply emits_bind; [apply emits_pace|intros _; apply emits_ret].
Qed.

Lemma emits_for_contracts mf sd codes :
  Emits Q (for_contracts env o mf sd codes).
Proof using Q_log Q_lookup Q_exists Q_read Q_download Q_csv Q_pickle Q_sleep.
  revert sd. induction codes as [|code codes IH]; intros sd; simpl.
  - apply emits_ret.
  - apply emits_bind; [apply emits_handle_contract|auto].
Qed.

Lemma emits_main : Emits Q (main env o).
Proof using All.
  unfold main, select_contracts, call_lookup.
  emits; auto using emits_for_contracts.
Qed.
End emits_script.

Lemma run_trace_Forall (Q : Event → Prop) (env : Env) (o : Options)
    (fs : gmap string File) :
  Emits Q (main env o) → Forall Q (trace (run env o fs).2).
Proof.
  intros H. destruct (H (mkWorld fs [])) as (evs & Ht & HQ).
  unfold run. by rewrite Ht.
Qed.

(** *** Export requests of one iteration *)

Lemma emits_filter {A} (P : Event → bool) (c : M A) (w : World) :
  Emits (λ e, P e = false) c →
  filter P (trace (c w).2) = filter P (trace w).
Proof.
  intros H. destruct (H w) as (evs & -> & HP).
  rewrite filter_app. rewrite <- (app_nil_r (filter P (trace w))) at 2.
  f_equal. induction HP as [|e evs He _ IH]; [done|].
  rewrite filter_cons, IH. rewrite He. done.
Qed.

Lemma persist_no_download (env : Env) (o : Options) p c L D :
  Emits (λ e, is_download e = false) (persist env o p c L D).
Proof. unfold persist, to_csv, to_pickle, log. emits; done. Qed.

Lemma pace_no_download (o : Options) :
  Emits (λ e, is_download e = false) (pace o).
Proof. unfold pace, sleep, log. emits; done. Qed.

Lemma prepare_no_download (env : Env) (o : Options) mf sd code :
  Emits (λ e, is_download e = false) (prepare env o mf sd code).
Proof.
  unfold prepare, resolve, plan, call_lookup, log. emits; done.
Qed.

Lemma finish_downloads (env : Env) (o : Options) (c : Contract.t)
    (planned : DataFrame * datetime) (w : World) :
  filter is_download (trace (finish env o c planned w).2)
  = filter is_download (trace w)
    ++ (if Market_value env (Contract.market c)
        then [EvDownload (Contract.id c) planned.2 (enddate o) (timeframe o)
                         (Contract.market c)]
        else []).
Proof.
  unfold finish, fetch, try_except, call_download, Market, log, bind, emit,
    from_sum, ret, raise.
  destruct (Market_value env (Contract.market c)); simpl;
    [|by rewrite app_nil_r].
  destruct (download _ _ _ _ _ _) as [e|D]; simpl.
  - destruct (is_FinamExportError e); simpl; [|by rewrite filter_app].
    destruct (skiperr o); simpl; [|by rewrite filter_app].
    by rewrite !filter_app, app_nil_r.
  - set (w1 := mkWorld _ _).
    assert (Hw1 : filter is_download (trace w1) = filter is_download (trace w)
      ++ [EvDownload (Contract.id c) planned.2 (enddate o) (timeframe o)
                     (Contract.market c)]).
    { unfold w1. simpl. by rewrite !filter_app, app_nil_r. }
    rewrite <- Hw1.
    pose proof (emits_filter is_download _ w1
                  (persist_no_download env o (destpath_of o c)
                     (compression_for o c) planned.1 D)) as Hp.
    destruct (persist _ _ _ _ _ _ w1) as [[[]|e] w2]; simpl in *; [|done].
    rewrite <- Hp.
    pose proof (emits_filter is_download _ w2 (pace_no_download o)) as Hs.
    by destruct (pace o w2) as [[[]|e] w3].
Qed.

Lemma prepare_existing (env : Env) (o : Options) (mf : option string)
    (sd d : datetime) (code : string) (c : Contract.t) (cs : list Contract.t)
    (L : DataFrame) (r : Row) (w : World) :
  append_flag o = true →
  lookup (exporter env) (Some code) mf = inr (c :: cs) →
  files w !! destpath_of o c = Some (Pickled L) →
  iloc_last L = Some r →
  strptime_Ymd (astype_str (DATE r)) = Some d →
  prepare env o mf sd code w
  = (Returns (c, (L, d)),
     mkWorld (files w)
       (trace w ++
        [EvLog INFO (Handling code); EvLookup (Some code) mf;
         EvLog INFO (DownloadingContract c);
         EvExists (destpath_of o c); EvReadPickle (destpath_of o c);
         EvLog INFO (FoundLocalFile (astype_str (DATE r)))])).
Proof.
  intros Ha Hl Hfile Hlast Hdate. unfold prepare. unfold bind at 1.
  rewrite (resolve_found env mf code c cs w Hl).
  unfold bind at 1. unfold log at 1, emit. simpl.
  unfold bind at 1. erewrite plan_existing by eauto. simpl. unfold ret.
  by rewrite <- !app_assoc.
Qed.

Lemma prepare_fresh (env : Env) (o : Options) (mf : option string)
    (sd : datetime) (code : string) (c : Contract.t) (cs : list Contract.t)
    (w : World) :
  append_flag o = true →
  lookup (exporter env) (Some code) mf = inr (c :: cs) →
  files w !! destpath_of o c = None →
  prepare env o mf sd code w
  = (Returns (c, ([], sd)),
     mkWorld (files w)
       (trace w ++
        [EvLog INFO (Handling code); EvLookup (Some code) mf;
         EvLog INFO (DownloadingContract c);
         EvExists (destpath_of o c); EvLog INFO AppendNoLocalFile])).
Proof.
  intros Ha Hl Hfile. unfold prepare. unfold bind at 1.
  rewrite (resolve_found env mf code c cs w Hl).
  unfold bind at 1. unfold log at 1, emit. simpl.
  unfold bind at 1. erewrite plan_fresh by eauto. simpl. unfold ret.
  by rewrite <- !app_assoc.
Qed.

Lemma prepare_off (env : Env) (o : Options) (mf : option string)
    (sd : datetime) (code : string) (c : Contract.t) (cs : list Contract.t)
    (w : World) :
  append_flag o = false →
  lookup (exporter env) (Some code) mf = inr (c :: cs) →
  prepare env o mf sd code w
  = (Returns (c, ([], sd)),
     mkWorld (files w)
       (trace w ++
        [EvLog INFO (Handling code); EvLookup (Some code) mf;
         EvLog INFO (DownloadingContract c)])).
Proof.
  intros Ha Hl. unfold prepare. unfold bind at 1.
  rewrite (resolve_found env mf code c cs w Hl).
  unfold bind at 1. unfold log at 1, emit. simpl.
  unfold bind at 1. rewrite plan_off by done. simpl. unfold ret.
  by rewrite <- !app_assoc.
Qed.

(** The download succeeds and the write completes: what [finish] leaves. *)
Lemma finish_saved (env : Env) (o : Options) (c : Contract.t)
    (L D : DataFrame) (sd : datetime) (f : Fileformat) (w : World) :
  fileformat o = Fileformat_name f → binary_family f = true →
  Market_value env (Contract.market c) = true →
  download (exporter env) (Contract.id c) sd (enddate o) (timeframe o)
           (Contract.market c) = inr D →
  disk env (destpath_of o c) = NoFault →
  let data := if append_flag o then drop_duplicates (pd_concat L D) else D in
  finish env o c (L, sd) w
  = (Returns sd,
     mkWorld (<[destpath_of o c := Pickled data]> (files w))
       (trace w ++
        [EvDownload (Contract.id c) sd (enddate o) (timeframe o)
                    (Contract.market c);
         EvLog INFO (LinesDownloaded (shape0 D))] ++
        (if append_flag o
         then [EvLog INFO (RecordsAdded (shape0 data - shape0 L) (shape0 L))]
         else []) ++
        [EvToPickle (destpath_of o c) data (compression_for o c);
         EvLog INFO (DataSaved (destpath_of o c))] ++
        (if bool_decide (delay o > 0)%Z
         then [EvLog INFO (Sleeping (delay o)); EvSleep (delay o)]
         else []))).
Proof.
  intros Hf Hb Hm Hd Hdisk data. unfold finish.
  unfold bind at 1. simpl. erewrite fetch_downloaded by eauto. simpl.
  unfold bind at 1. subst data. destruct (append_flag o) eqn:Ha.
  - erewrite persist_merged by eauto. simpl.
    unfold bind at 1. rewrite pace_run. simpl. unfold ret.
    by rewrite <- !app_assoc.
  - erewrite persist_plain by eauto. simpl.
    unfold bind at 1. rewrite pace_run. simpl. unfold ret.
    by rewrite <- !app_assoc.
Qed.

(** *** The append-mode merge *)

(** C1.  In append mode with a binary format, persisting a downloaded
    frame [D] over a local frame [L] writes [L] followed by [D] with the
    rows that repeat an earlier row removed: the file ends up holding
    exactly the first occurrences, no row twice, at most [|L| + |D|]
    rows, and the log reports the size of the result minus [|L|]. *)
Theorem append_persist_writes_first_occurrences
    (env : Env) (o : Options) (p : string) (c : option string)
    (L D : DataFrame) (w : World) (f : Fileformat) :
  fileformat o = Fileformat_name f → binary_family f = true →
  append_flag o = true → disk env p = NoFault →
  let merged := drop_duplicates (pd_concat L D) in
  persist env o p c L D w
  = (Returns (),
     mkWorld (<[p := Pickled merged]> (files w))
       (trace w ++
        [EvLog INFO (RecordsAdded (shape0 merged - shape0 L) (shape0 L));
         EvToPickle p merged c;
         EvLog INFO (DataSaved p)]))
  ∧ merged = first_occurrences (L ++ D)
  ∧ NoDup merged
  ∧ (∀ r, r ∈ merged ↔ r ∈ L ∨ r ∈ D)
  ∧ length merged ≤ length L + length D.
Proof.
  intros Hf Hb Ha Hd merged. split; [|split; [|split; [|split]]].
  - eapply persist_merged; eauto.
  - apply drop_duplicates_first_occurrences.
  - apply NoDup_drop_duplicates_from.
  - intros r. unfold merged, drop_duplicates, pd_concat.
    rewrite elem_of_drop_duplicates_from, elem_of_app.
    split; [tauto|]. intros H. split; [done|]. apply not_elem_of_nil.
  - unfold merged, drop_duplicates, pd_concat.
    rewrite <- length_app. apply length_drop_duplicates_from.
Qed.

Lemma append_persist_writes_first_occurrences_witness :
  let env := sample_env (λ _, inr three_days) in
  let o := sample_options (Some ["AAA"]) None true "PKL" (Some "y") in
  let merged := [row 20200102 4; row 20200103 5; row 20200104 6; row 20200105 7] in
  persist env o "/data/AAA-DAILY.pkl" None two_days three_days (mkWorld ∅ [])
  = (Returns (),
     mkWorld {[ "/data/AAA-DAILY.pkl" := Pickled merged ]}
       [EvLog INFO (RecordsAdded 2 2);
        EvToPickle "/data/AAA-DAILY.pkl" merged None;
        EvLog INFO (DataSaved "/data/AAA-DAILY.pkl")])
  ∧ NoDup merged.
Proof.
  intros env o merged.
  pose proof (append_persist_writes_first_occurrences env o
    "/data/AAA-DAILY.pkl" None two_days three_days (mkWorld ∅ []) PKL
    eq_refl eq_refl eq_refl eq_refl) as (Hrun & _ & Hnodup & _).
  split; [exact Hrun|exact Hnodup].
Defined.

(** *** The dates of the export request *)

Lemma main_downloads_until_enddate (env : Env) (o : Options) :
  Emits (download_until (enddate o)) (main env o).
Proof. apply emits_main; done. Qed.

(** Dates kept as integers, as the provider gives them. *)

Section integer_dates.

Lemma digit_pretty_N_char (k : N) :
  (k < 10)%N → digit (pretty_N_char k) = Some (Z.of_N k).
Proof.
  intros Hk.
  assert (k = 0 ∨ k = 1 ∨ k = 2 ∨ k = 3 ∨ k = 4 ∨ k = 5 ∨ k = 6 ∨ k = 7
          ∨ k = 8 ∨ k = 9)%N as Hcases by lia.
  repeat (destruct Hcases as [->|Hcases]; [reflexivity|]). by subst.
Qed.

#[local] Ltac Zify.zify_post_hook ::= Z.to_euclidean_division_equations.

(** One step of the decimal printer, on a number given as ten times
    [q] plus a digit [r]. *)
Lemma pretty_N_go_digit (q r : N) (s : string) :
  (0 < q)%N → (r < 10)%N →
  pretty_N_go (10 * q + r) s = pretty_N_go q (String (pretty_N_char r) s).
Proof.
  intros Hq Hr. rewrite pretty_N_go_step by lia.
  assert (((10 * q + r) `div` 10)%N = q) as -> by lia.
  assert (((10 * q + r) `mod` 10)%N = r) as -> by lia.
  done.
Qed.

Lemma pretty_N_go_last_digit (r : N) (s : string) :
  (0 < r < 10)%N → pretty_N_go r s = String (pretty_N_char r) s.
Proof.
  intros Hr. rewrite pretty_N_go_step by lia.
  assert ((r `div` 10)%N = 0%N) as -> by lia.
  assert ((r `mod` 10)%N = r) as -> by lia.
  apply pretty_N_go_0.
Qed.

(** The decimal text of [10000 * y + 100 * m + d] for a year of four
    digits: the digits of the year, of the month and of the day. *)
Lemma pretty_date_number (y m d : N) :
  (1000 ≤ y < 10000)%N → (m < 100)%N → (d < 100)%N →
  pretty (10000 * y + 100 * m + d)%N
  = String (pretty_N_char (y / 1000))
     (String (pretty_N_char ((y / 100) `mod` 10))
     (String (pretty_N_char ((y / 10) `mod` 10))
     (String (pretty_N_char (y `mod` 10))
     (String (pretty_N_char (m / 10))
     (String (pretty_N_char (m `mod` 10))
     (String (pretty_N_char (d / 10))
     (String (pretty_N_char (d `mod` 10)) "")))))))%N.
Proof.
  intros Hy Hm Hd. unfold pretty, pretty_N. rewrite decide_False by lia.
  assert (10000 * y + 100 * m + d
          = 10 * (1000 * y + 10 * m + d / 10) + d `mod` 10)%N as -> by lia.
  rewrite pretty_N_go_digit by lia.
  assert (1000 * y + 10 * m + d / 10 = 10 * (100 * y + m) + d / 10)%N
    as -> by lia.
  rewrite pretty_N_go_digit by lia.
  assert (100 * y + m = 10 * (10 * y + m / 10) + m `mod` 10)%N as -> by lia.
  rewrite pretty_N_go_digit by lia.
  rewrite (pretty_N_go_digit y (m / 10)) by lia.
  assert (y = 10 * (y / 10) + y `mod` 10)%N as Hy0 by lia.
  rewrite Hy0 at 1. rewrite pretty_N_go_digit by lia.
  assert (y / 10 = 10 * (y / 100) + (y / 10) `mod` 10)%N as Hy1 by lia.
  rewrite Hy1 at 1. rewrite pretty_N_go_digit by lia.
  assert (y / 100 = 10 * (y / 1000) + (y / 100) `mod` 10)%N as Hy2 by lia.
  rewrite Hy2 at 1. rewrite pretty_N_go_digit by lia.
  by rewrite pretty_N_go_last_digit by lia.
Qed.

Lemma head_bind {A B} (l : list A) (k : A → list B) (x : A) (v : B) :
  head l = Some x → head (k x) = Some v → head (l ≫= k) = Some v.
Proof.
  destruct l as [|a l]; [done|]. intros [= ->] Hk. simpl.
  by destruct (k x).
Qed.

Lemma month_alternative (m : N) (rest : string) :
  (1 ≤ m ≤ 12)%N →
  head (alternatives regex_m
          (String (pretty_N_char (m / 10)) (String (pretty_N_char (m `mod` 10)) rest)))
  = Some (Z.of_N m, rest).
Proof.
  intros Hm.
  assert (m = 1 ∨ m = 2 ∨ m = 3 ∨ m = 4 ∨ m = 5 ∨ m = 6 ∨ m = 7 ∨ m = 8
          ∨ m = 9 ∨ m = 10 ∨ m = 11 ∨ m = 12)%N as Hcases by lia.
  repeat (destruct Hcases as [->|Hcases]; [reflexivity|]). by subst.
Qed.

Lemma day_alternative (d : N) :
  (1 ≤ d ≤ 31)%N →
  head (alternatives regex_d
          (String (pretty_N_char (d / 10)) (String (pretty_N_char (d `mod` 10)) "")))
  = Some (Z.of_N d, "").
Proof.
  intros Hd.
  assert (d = 1 ∨ d = 2 ∨ d = 3 ∨ d = 4 ∨ d = 5 ∨ d = 6 ∨ d = 7 ∨ d = 8
          ∨ d = 9 ∨ d = 10 ∨ d = 11 ∨ d = 12 ∨ d = 13 ∨ d = 14 ∨ d = 15
          ∨ d = 16 ∨ d = 17 ∨ d = 18 ∨ d = 19 ∨ d = 20 ∨ d = 21 ∨ d = 22
          ∨ d = 23 ∨ d = 24 ∨ d = 25 ∨ d = 26 ∨ d = 27 ∨ d = 28 ∨ d = 29
          ∨ d = 30 ∨ d = 31)%N as Hcases by lia.
  repeat (destruct Hcases as [->|Hcases]; [reflexivity|]). by subst.
Qed.

Lemma year_alternative (y : N) (rest : string) :
  (y < 10000)%N →
  head (alternatives regex_Y
          (String (pretty_N_char (y / 1000))
          (String (pretty_N_char ((y / 100) `mod` 10))
          (String (pretty_N_char ((y / 10) `mod` 10))
          (String (pretty_N_char (y `mod` 10)) rest)))))
  = Some (Z.of_N y, rest).
Proof.
  intros Hy. unfold alternatives, regex_Y, four_digits. simpl.
  rewrite !digit_pretty_N_char by lia. simpl. do 2 f_equal. lia.
Qed.

Lemma pretty_Z_of_N (n : N) : (0 < n)%N → pretty (Z.of_N n) = pretty n.
Proof. destruct n; [lia|done]. Qed.

Lemma valid_date_bounds (y m d : Z) :
  valid_date y m d = true → (1 ≤ y ≤ 9999 ∧ 1 ≤ m ≤ 12 ∧ 1 ≤ d ≤ 31)%Z.
Proof.
  unfold valid_date, days_in_month. intros H.
  apply andb_true_iff in H as [H Hd]. apply andb_true_iff in H as [Hy Hm].
  apply bool_decide_eq_true in Hy, Hm, Hd.
  repeat case_bool_decide; destruct (is_leap y); lia.
Qed.

(** The text of an integer date reads back as the date. *)
Lemma strptime_date_number (y m d : Z) :
  (1000 ≤ y)%Z → valid_date y m d = true →
  strptime_Ymd (astype_str (CInt (10000 * y + 100 * m + d)))
  = Some (mkDate y m d).
Proof.
  intros Hy Hvalid.
  destruct (valid_date_bounds y m d Hvalid) as (Hyb & Hmb & Hdb).
  assert (10000 * y + 100 * m + d
          = Z.of_N (10000 * Z.to_N y + 100 * Z.to_N m + Z.to_N d))%Z as ->
    by lia.
  unfold astype_str. rewrite pretty_Z_of_N by lia.
  rewrite pretty_date_number by lia.
  unfold strptime_Ymd.
  assert (Hmatch : match_Ymd
    (String (pretty_N_char (Z.to_N y / 1000))
      (String (pretty_N_char ((Z.to_N y / 100) `mod` 10))
      (String (pretty_N_char ((Z.to_N y / 10) `mod` 10))
      (String (pretty_N_char (Z.to_N y `mod` 10))
      (String (pretty_N_char (Z.to_N m / 10))
      (String (pretty_N_char (Z.to_N m `mod` 10))
      (String (pretty_N_char (Z.to_N d / 10))
      (String (pretty_N_char (Z.to_N d `mod` 10)) ""))))))))%N
    = Some (y, m, d, "")).
  { unfold match_Ymd.
    eapply head_bind; [apply year_alternative; lia|]. simpl.
    eapply head_bind; [apply month_alternative; lia|]. simpl.
    eapply head_bind; [apply day_alternative; lia|]. simpl.
    by rewrite !Z2N.id by lia. }
  rewrite Hmatch. by rewrite Hvalid.
Qed.

End integer_dates.

(** A local frame whose last date does not read as a day: the plan
    raises after the read. *)
Lemma prepare_unparsed (env : Env) (o : Options) (mf : option string)
    (sd : datetime) (code : string) (c : Contract.t) (cs : list Contract.t)
    (L : DataFrame) (r : Row) (w : World) :
  append_flag o = true →
  lookup (exporter env) (Some code) mf = inr (c :: cs) →
  files w !! destpath_of o c = Some (Pickled L) →
  iloc_last L = Some r →
  strptime_Ymd (astype_str (DATE r)) = None →
  prepare env o mf sd code w
  = (Raises ValueError,
     mkWorld (files w)
       (trace w ++
        [EvLog INFO (Handling code); EvLookup (Some code) mf;
         EvLog INFO (DownloadingContract c);
         EvExists (destpath_of o c); EvReadPickle (destpath_of o c)])).
Proof.
  intros Ha Hl Hfile Hlast Hdate. unfold prepare. unfold bind at 1.
  rewrite (resolve_found env mf code c cs w Hl).
  unfold bind at 1. unfold log at 1, emit. simpl.
  unfold plan. rewrite Ha.
  unfold path_exists, read_pickle, from_option, log, bind, emit, ret, raise.
  simpl. rewrite Hfile. simpl. rewrite Hfile, Hlast. simpl. rewrite Hdate.
  simpl. by rewrite <- !app_assoc.
Qed.

(** C2.  In append mode, when the destination of the contract holds a
    local frame, the export request of the iteration starts at the date
    of the last local row: for a [<DATE>] field that holds the day
    [y]-[m]-[d] as the number [10000 * y + 100 * m + d], or as the text
    of that number, the one request of the iteration starts at that very
    day.  Whatever the field holds, the request starts at the day that
    [%Y%m%d] reads in its text, and no request is made when it reads
    none or when the market of the contract does not convert.  In any
    run every export request ends at the requested end date. *)
Theorem append_resumes_from_last_local_date
    (env : Env) (o : Options) (fs : gmap string File) :
  (∀ (mf : option string) (sd : datetime) (code : string)
     (c : Contract.t) (cs : list Contract.t) (L : DataFrame) (r : Row)
     (w : World),
     append_flag o = true →
     lookup (exporter env) (Some code) mf = inr (c :: cs) →
     files w !! destpath_of o c = Some (Pickled L) →
     iloc_last L = Some r →
     let requests :=
       filter is_download (trace (handle_contract env o mf sd code w).2) in
     let request_from (start_date : datetime) :=
       [EvDownload (Contract.id c) start_date (enddate o) (timeframe o)
                   (Contract.market c)] in
     (∀ y m d : Z,
        DATE r = CInt (10000 * y + 100 * m + d)
        ∨ DATE r = CStr (pretty (10000 * y + 100 * m + d)%Z) →
        (1000 ≤ y)%Z → valid_date y m d = true →
        Market_value env (Contract.market c) = true →
        requests = filter is_download (trace w) ++ request_from (mkDate y m d))
     ∧ requests
       = filter is_download (trace w)
         ++ match strptime_Ymd (astype_str (DATE r)) with
            | Some start_date =>
                if Market_value env (Contract.market c)
                then request_from start_date else []
            | None => []
            end)
  ∧ Forall (download_until (enddate o)) (trace (run env o fs).2).
Proof.
  split.
  - intros mf sd code c cs L r w Ha Hl Hfile Hlast requests request_from.
    assert (Hall : requests
       = filter is_download (trace w)
         ++ match strptime_Ymd (astype_str (DATE r)) with
            | Some start_date =>
                if Market_value env (Contract.market c)
                then request_from start_date else []
            | None => []
            end).
    { subst requests request_from. rewrite handle_contract_prepare.
      unfold bind.
      destruct (strptime_Ymd (astype_str (DATE r))) as [start_date|] eqn:Hdate.
      - erewrite prepare_existing by eauto. simpl.
        rewrite finish_downloads. simpl.
        rewrite filter_app. simpl. by rewrite app_nil_r.
      - erewrite prepare_unparsed by eauto. simpl.
        rewrite filter_app. simpl. done. }
    split; [|exact Hall].
    intros y m d Hcell Hy Hvalid Hm. rewrite Hall.
    assert (strptime_Ymd (astype_str (DATE r)) = Some (mkDate y m d)) as ->.
    { destruct Hcell as [-> | ->]; by apply strptime_date_number. }
    by rewrite Hm.
  - apply run_trace_Forall, main_downloads_until_enddate.
Qed.

Lemma append_resumes_from_last_local_date_witness :
  let env := sample_env (λ _, inr three_days) in
  let o := sample_options (Some ["AAA"]) None true "PKL" (Some "y") in
  let w := mkWorld {[ "/data/AAA-DAILY.pkl" := Pickled two_days ]} [] in
  filter is_download
    (trace (handle_contract env o None (mkDate 2020 1 1) "AAA" w).2)
  = [EvDownload 1 (mkDate 2020 1 3) (mkDate 2020 1 5) "DAILY" 1].
Proof.
  intros env o w.
  apply (proj1 (proj1 (append_resumes_from_last_local_date env o ∅)
                  None (mkDate 2020 1 1) "AAA" AAA [] two_days
                  (row 20200103 5) w eq_refl eq_refl eq_refl eq_refl)
           2020 1 3)%Z.
  - left. reflexivity.
  - lia.
  - reflexivity.
  - reflexivity.
Defined.

(** *** Append mode without a local file *)

Lemma handle_contract_fresh (env : Env) (o : Options) (mf : option string)
    (sd : datetime) (code : string) (c : Contract.t) (cs : list Contract.t)
    (D : DataFrame) (f : Fileformat) (w : World) :
  fileformat o = Fileformat_name f → binary_family f = true →
  append_flag o = true →
  lookup (exporter env) (Some code) mf = inr (c :: cs) →
  files w !! destpath_of o c = None →
  Market_value env (Contract.market c) = true →
  download (exporter env) (Contract.id c) sd (enddate o) (timeframe o)
           (Contract.market c) = inr D →
  disk env (destpath_of o c) = NoFault →
  handle_contract env o mf sd code w
  = (Returns sd,
     mkWorld (<[destpath_of o c := Pickled (drop_duplicates D)]> (files w))
       (trace w ++
        [EvLog INFO (Handling code); EvLookup (Some code) mf;
         EvLog INFO (DownloadingContract c);
         EvExists (destpath_of o c); EvLog INFO AppendNoLocalFile;
         EvDownload (Contract.id c) sd (enddate o) (timeframe o)
                    (Contract.market c);
         EvLog INFO (LinesDownloaded (shape0 D));
         EvLog INFO (RecordsAdded (shape0 (drop_duplicates D) - 0) 0);
         EvToPickle (destpath_of o c) (drop_duplicates D) (compression_for o c);
         EvLog INFO (DataSaved (destpath_of o c))] ++
        (if bool_decide (delay o > 0)%Z
         then [EvLog INFO (Sleeping (delay o)); EvSleep (delay o)]
         else []))).
Proof.
  intros Hf Hb Ha Hl Hfile Hm Hd Hdisk.
  rewrite handle_contract_prepare. unfold bind.
  erewrite prepare_fresh by eauto. simpl.
  erewrite finish_saved by eauto. rewrite Ha. simpl.
  by rewrite <- !app_assoc.
Qed.

Lemma handle_contract_plain (env : Env) (o : Options) (mf : option string)
    (sd : datetime) (code : string) (c : Contract.t) (cs : list Contract.t)
    (D : DataFrame) (f : Fileformat) (w : World) :
  fileformat o = Fileformat_name f → binary_family f = true →
  append_flag o = false →
  lookup (exporter env) (Some code) mf = inr (c :: cs) →
  Market_value env (Contract.market c) = true →
  download (exporter env) (Contract.id c) sd (enddate o) (timeframe o)
           (Contract.market c) = inr D →
  disk env (destpath_of o c) = NoFault →
  handle_contract env o mf sd code w
  = (Returns sd,
     mkWorld (<[destpath_of o c := Pickled D]> (files w))
       (trace w ++
        [EvLog INFO (Handling code); EvLookup (Some code) mf;
         EvLog INFO (DownloadingContract c);
         EvDownload (Contract.id c) sd (enddate o) (timeframe o)
                    (Contract.market c);
         EvLog INFO (LinesDownloaded (shape0 D));
         EvToPickle (destpath_of o c) D (compression_for o c);
         EvLog INFO (DataSaved (destpath_of o c))] ++
        (if bool_decide (delay o > 0)%Z
         then [EvLog INFO (Sleeping (delay o)); EvSleep (delay o)]
         else []))).
Proof.
  intros Hf Hb Ha Hl Hm Hd Hdisk.
  rewrite handle_contract_prepare. unfold bind.
  erewrite prepare_off by eauto. simpl.
  erewrite finish_saved by eauto. rewrite Ha. simpl.
  by rewrite <- !app_assoc.
Qed.

Lemma filter_write_pace (o : Options) :
  filter is_write
    (if bool_decide (delay o > 0)%Z
     then [EvLog INFO (Sleeping (delay o)); EvSleep (delay o)]
     else []) = [].
Proof. by case_bool_decide. Qed.

Lemma filter_download_pace (o : Options) :
  filter is_download
    (if bool_decide (delay o > 0)%Z
     then [EvLog INFO (Sleeping (delay o)); EvSleep (delay o)]
     else []) = [].
Proof. by case_bool_decide. Qed.

(** C3, as the script has it.  In append mode, for a contract without a
    local file that is reached with the requested start date, the export
    request starts at the requested start date, and the downloaded frame
    is merged with an empty local frame: it is written with its repeated
    rows removed.  When no row of the download repeats another, the
    request, the frame written and the files are those of the same
    iteration without append mode. *)
Theorem append_without_local_file
    (env : Env) (o : Options) (mf : option string) (code : string)
    (c : Contract.t) (cs : list Contract.t) (D : DataFrame) (f : Fileformat)
    (w : World) :
  fileformat o = Fileformat_name f → binary_family f = true →
  append_flag o = true →
  lookup (exporter env) (Some code) mf = inr (c :: cs) →
  files w !! destpath_of o c = None →
  Market_value env (Contract.market c) = true →
  download (exporter env) (Contract.id c) (startdate o) (enddate o)
           (timeframe o) (Contract.market c) = inr D →
  disk env (destpath_of o c) = NoFault →
  let w' := (handle_contract env o mf (startdate o) code w).2 in
  let v := (handle_contract env (without_append o) mf (startdate o) code w).2 in
  filter is_download (trace w')
  = filter is_download (trace w)
    ++ [EvDownload (Contract.id c) (startdate o) (enddate o) (timeframe o)
                   (Contract.market c)]
  ∧ filter is_write (trace w')
    = filter is_write (trace w)
      ++ [EvToPickle (destpath_of o c) (drop_duplicates D) (compression_for o c)]
  ∧ files w' = <[destpath_of o c := Pickled (drop_duplicates D)]> (files w)
  ∧ (NoDup D →
     filter is_download (trace w') = filter is_download (trace v)
     ∧ filter is_write (trace w') = filter is_write (trace v)
     ∧ files w' = files v).
Proof.
  intros Hf Hb Ha Hl Hfile Hm Hd Hdisk w' v.
  assert (Hw' := handle_contract_fresh env o mf (startdate o) code c cs D f w
                   Hf Hb Ha Hl Hfile Hm Hd Hdisk).
  assert (Hv := handle_contract_plain env (without_append o) mf (startdate o)
                  code c cs D f w Hf Hb eq_refl Hl Hm Hd Hdisk).
  subst w' v. rewrite Hw', Hv. cbn [snd trace files].
  rewrite !filter_app, !filter_write_pace, !filter_download_pace.
  simpl.
  split; [done|]. split; [done|]. split; [done|].
  intros Hnd.
  assert (drop_duplicates D = D) as ->.
  { apply drop_duplicates_from_NoDup; [done|]. intros x _. apply not_elem_of_nil. }
  done.
Qed.

Lemma append_without_local_file_witness :
  let env := sample_env (λ _, inr three_days) in
  let o := sample_options (Some ["AAA"]) None true "PKL" (Some "y") in
  let w' := (handle_contract env o None (mkDate 2020 1 1) "AAA" (mkWorld ∅ [])).2 in
  let v := (handle_contract env (without_append o) None (mkDate 2020 1 1) "AAA"
              (mkWorld ∅ [])).2 in
  filter is_download (trace w')
  = [EvDownload 1 (mkDate 2020 1 1) (mkDate 2020 1 5) "DAILY" 1]
  ∧ files w' = {[ "/data/AAA-DAILY.pkl" := Pickled three_days ]}
  ∧ files w' = files v.
Proof.
  intros env o w' v.
  pose proof (append_without_local_file env o None "AAA" AAA [] three_days PKL
                (mkWorld ∅ []) eq_refl eq_refl eq_refl eq_refl eq_refl eq_refl
                eq_refl eq_refl) as (Hd & _ & Hfiles & Hsame).
  split; [exact Hd|]. split; [exact Hfiles|].
  apply Hsame. unfold three_days, row. repeat constructor; set_solver.
Defined.

(** C3 as stated fails: with append mode on and no local file, a
    download in which a row repeats is written without the repeat, while
    the same run without append mode writes it as downloaded. *)
Lemma fresh_append_drops_repeated_rows :
  let env := sample_env (λ _, inr repeated_day) in
  let o := sample_options (Some ["AAA"]) None true "PKL" (Some "y") in
  files (run env o ∅).2 !! "/data/AAA-DAILY.pkl"
  = Some (Pickled [row 20200103 5; row 20200104 6])
  ∧ files (run env (without_append o) ∅).2 !! "/data/AAA-DAILY.pkl"
    = Some (Pickled [row 20200103 5; row 20200103 5; row 20200104 6])
  ∧ files (run env o ∅).2 ≠ files (run env (without_append o) ∅).2.
Proof.
  intros env o.
  assert (H1 : files (run env o ∅).2 !! "/data/AAA-DAILY.pkl"
               = Some (Pickled [row 20200103 5; row 20200104 6]))
    by (vm_compute; done).
  assert (H2 : files (run env (without_append o) ∅).2 !! "/data/AAA-DAILY.pkl"
               = Some (Pickled [row 20200103 5; row 20200103 5; row 20200104 6]))
    by (vm_compute; done).
  split; [done|]. split; [done|].
  intros Heq. rewrite Heq, H2 in H1. discriminate H1.
Qed.

(** The start date assigned from one contract's local file stays in
    force for the next contract: BBB has no local file, yet its export
    request starts at the last local date of AAA, not at the requested
    2020-01-01. *)
Lemma start_date_carried_to_next_contract :
  let env := sample_env (λ _, inr three_days) in
  let o := sample_options (Some ["AAA"; "BBB"]) None true "PKL" (Some "y") in
  let fs : gmap string File := {[ "/data/AAA-DAILY.pkl" := Pickled two_days ]} in
  filter is_download (trace (run env o fs).2)
  = [EvDownload 1 (mkDate 2020 1 3) (mkDate 2020 1 5) "DAILY" 1;
     EvDownload 2 (mkDate 2020 1 3) (mkDate 2020 1 5) "DAILY" 1].
Proof. vm_compute. done. Qed.

(** *** Export errors *)

Lemma prepare_keeps_files (env : Env) (o : Options) (mf : option string)
    (sd : datetime) (code : string) (w : World) :
  files (prepare env o mf sd code w).2 = files w.
Proof.
  unfold prepare, resolve, plan, try_except, call_lookup, path_exists,
    read_pickle, from_option, from_sum, log, bind, emit, ret, raise.
  simpl. repeat (case_match; simpl; simplify_eq); done.
Qed.

Lemma prepare_no_write (env : Env) (o : Options) mf sd code :
  Emits (λ e, is_write e = false) (prepare env o mf sd code).
Proof.
  unfold prepare, resolve, plan, call_lookup, log. emits; done.
Qed.

(** C5.  When the export request of a contract fails with an export
    error, nothing has been written for it; with [skiperr] the error is
    logged and the loop goes on with the next contract, without
    [skiperr] the error leaves the loop at once and the remaining
    contracts are not handled. *)
Theorem export_error_skips_or_stops
    (env : Env) (o : Options) (mf : option string) (sd sd' : datetime)
    (code : string) (rest : list string) (c : Contract.t) (L : DataFrame)
    (e : Exc) (w w2 : World) :
  prepare env o mf sd code w = (Returns (c, (L, sd')), w2) →
  Market_value env (Contract.market c) = true →
  download (exporter env) (Contract.id c) sd' (enddate o) (timeframe o)
           (Contract.market c) = inl e →
  is_FinamExportError e = true →
  let request := EvDownload (Contract.id c) sd' (enddate o) (timeframe o)
                            (Contract.market c) in
  files w2 = files w
  ∧ filter is_write (trace w2) = filter is_write (trace w)
  ∧ (skiperr o = true →
     for_contracts env o mf sd (code :: rest) w
     = for_contracts env o mf sd' rest
         (mkWorld (files w) (trace w2 ++ [request; EvLog ERROR (ErrorRepr e)])))
  ∧ (skiperr o = false →
     for_contracts env o mf sd (code :: rest) w
     = (Raises e, mkWorld (files w) (trace w2 ++ [request]))).
Proof.
  intros Hprep Hm Hd He request.
  assert (Hfiles : files w2 = files w).
  { pose proof (prepare_keeps_files env o mf sd code w) as H.
    by rewrite Hprep in H. }
  assert (Hwrites : filter is_write (trace w2) = filter is_write (trace w)).
  { pose proof (emits_filter is_write _ w (prepare_no_write env o mf sd code)) as H.
    by rewrite Hprep in H. }
  split; [done|]. split; [done|].
  assert (Hstep : handle_contract env o mf sd code w
                  = bind (fetch env o c sd') (λ fetched,
                      match fetched with
                      | None => ret sd'
                      | Some data =>
                          bind (persist env o (destpath_of o c)
                                  (compression_for o c) L data)
                               (λ _, bind (pace o) (λ _, ret sd'))
                      end) w2).
  { rewrite handle_contract_prepare. unfold bind at 1. by rewrite Hprep. }
  split; intros Hskip.
  - simpl. unfold bind at 1. rewrite Hstep. unfold bind at 1.
    rewrite (fetch_failed env o c sd' e w2 Hm Hd He), Hskip. simpl.
    by rewrite Hfiles.
  - simpl. unfold bind at 1. rewrite Hstep. unfold bind at 1.
    rewrite (fetch_failed env o c sd' e w2 Hm Hd He), Hskip.
    by rewrite Hfiles.
Qed.

Lemma export_error_skips_or_stops_witness :
  let env := sample_env failing_AAA in
  let sd := mkDate 2020 1 1 in
  let request := EvDownload 1 sd (mkDate 2020 1 5) "DAILY" 1 in
  let before := [EvLog INFO (Handling "AAA"); EvLookup (Some "AAA") None;
                 EvLog INFO (DownloadingContract AAA)] in
  (let o := sample_options (Some ["AAA"; "BBB"]) None true "PKL" None in
   for_contracts env o None sd ["AAA"; "BBB"] (mkWorld ∅ [])
   = for_contracts env o None sd ["BBB"]
       (mkWorld ∅ (before ++ [request;
                              EvLog ERROR (ErrorRepr (FinamExportError "throttled"))])))
  ∧ (let o := sample_options (Some ["AAA"; "BBB"]) None false "PKL" None in
     for_contracts env o None sd ["AAA"; "BBB"] (mkWorld ∅ [])
     = (Raises (FinamExportError "throttled"), mkWorld ∅ (before ++ [request]))).
Proof.
  intros env sd request before. split.
  - intros o.
    apply (export_error_skips_or_stops env o None sd sd "AAA" ["BBB"] AAA []
             (FinamExportError "throttled") (mkWorld ∅ []) (mkWorld ∅ before));
      reflexivity.
  - intros o.
    apply (export_error_skips_or_stops env o None sd sd "AAA" ["BBB"] AAA []
             (FinamExportError "throttled") (mkWorld ∅ []) (mkWorld ∅ before));
      reflexivity.
Defined.

(** *** Pacing *)

Lemma Paced_step (d : Z) (blk rest : list Event) :
  step_block d blk → Paced d rest → Paced d (blk ++ rest).
Proof.
  intros [[e ->]|(wr & p & Hwr & ->)] Hrest; simpl.
  - by apply paced_skipped.
  - by apply paced_saved.
Qed.

Lemma Paced_stop (d : Z) (blk : list Event) : stop_block blk → Paced d blk.
Proof.
  intros [->|(wr & Hwr & ->)]; [apply paced_end|by apply paced_failed_write].
Qed.

Lemma persist_pacing (env : Env) (o : Options) (p : string)
    (c : option string) (L D : DataFrame) (f : Fileformat) (w : World) :
  fileformat o = Fileformat_name f →
  ∃ wr, is_write wr = true ∧
    filter is_pacing (trace (persist env o p c L D w).2)
    = filter is_pacing (trace w)
      ++ match (persist env o p c L D w).1 with
         | Returns _ => [wr; EvLog INFO (DataSaved p)]
         | Raises _ => [wr]
         end.
Proof.
  intros Hf. unfold persist. rewrite Hf, slice3_csv_family, slice3_pkl_family.
  unfold to_csv, to_pickle, write_file.
  destruct f, (append_flag o), (disk env p); simpl;
    unfold bind, log, emit, store, raise, ret; simpl;
    rewrite ?filter_app; simpl; rewrite <- ?app_assoc; simpl;
    eexists; (split; [|reflexivity]); reflexivity.
Qed.

Lemma prepare_no_pacing (env : Env) (o : Options) mf sd code :
  Emits (λ e, is_pacing e = false) (prepare env o mf sd code).
Proof.
  unfold prepare, resolve, plan, call_lookup, log. emits; done.
Qed.

Lemma finish_pacing (env : Env) (o : Options) (c : Contract.t)
    (planned : DataFrame * datetime) (f : Fileformat) (w : World) :
  fileformat o = Fileformat_name f → (delay o > 0)%Z →
  ∃ blk,
    filter is_pacing (trace (finish env o c planned w).2)
    = filter is_pacing (trace w) ++ blk
    ∧ match (finish env o c planned w).1 with
      | Returns _ => step_block (delay o) blk
      | Raises _ => stop_block blk
      end.
Proof.
  intros Hf Hd.
  unfold finish, fetch, try_except, call_download, Market, log, bind, emit,
    from_sum, ret, raise.
  destruct (Market_value env (Contract.market c)); simpl;
    [|exists []; split; [by rewrite app_nil_r|by left]].
  destruct (download _ _ _ _ _ _) as [e|D]; simpl.
  - destruct (is_FinamExportError e); simpl.
    + destruct (skiperr o); simpl.
      * exists [EvLog ERROR (ErrorRepr e)]. split; [|left; eauto].
        rewrite !filter_app. simpl. by rewrite app_nil_r.
      * exists []. split; [|by left]. rewrite !filter_app. simpl.
        by rewrite !app_nil_r.
    + exists []. split; [|by left]. rewrite !filter_app. simpl.
      by rewrite !app_nil_r.
  - set (w1 := mkWorld _ _).
    assert (Hw1 : filter is_pacing (trace w1) = filter is_pacing (trace w)).
    { unfold w1. simpl. rewrite !filter_app. simpl. by rewrite !app_nil_r. }
    destruct (persist_pacing env o (destpath_of o c) (compression_for o c)
                planned.1 D f w1 Hf) as (wr & Hwr & Hp).
    destruct (persist _ _ _ _ _ _ w1) as [[[]|e] w2]; simpl in *.
    + rewrite pace_run. simpl.
      rewrite bool_decide_eq_true_2 by done.
      exists [wr; EvLog INFO (DataSaved (destpath_of o c)); EvSleep (delay o)].
      split; [|right; eauto].
      rewrite filter_app, Hp, Hw1, <- app_assoc. done.
    + exists [wr]. split; [|right; eauto]. by rewrite Hp, Hw1.
Qed.

Lemma handle_contract_pacing (env : Env) (o : Options) (mf : option string)
    (sd : datetime) (code : string) (f : Fileformat) (w : World) :
  fileformat o = Fileformat_name f → (delay o > 0)%Z →
  ∃ blk,
    filter is_pacing (trace (handle_contract env o mf sd code w).2)
    = filter is_pacing (trace w) ++ blk
    ∧ match (handle_contract env o mf sd code w).1 with
      | Returns _ => step_block (delay o) blk
      | Raises _ => stop_block blk
      end.
Proof.
  intros Hf Hd. rewrite handle_contract_prepare. unfold bind.
  pose proof (emits_filter is_pacing _ w (prepare_no_pacing env o mf sd code))
    as Hprep.
  destruct (prepare env o mf sd code w) as [[[c planned]|e] w1]; simpl in *.
  - rewrite <- Hprep. by apply finish_pacing with f.
  - exists []. split; [by rewrite app_nil_r|by left].
Qed.

Lemma for_contracts_pacing (env : Env) (o : Options) (mf : option string)
    (sd : datetime) (codes : list string) (f : Fileformat) (w : World) :
  fileformat o = Fileformat_name f → (delay o > 0)%Z →
  ∃ evs,
    filter is_pacing (trace (for_contracts env o mf sd codes w).2)
    = filter is_pacing (trace w) ++ evs
    ∧ Paced (delay o) evs.
Proof.
  intros Hf Hd. revert sd w.
  induction codes as [|code codes IH]; intros sd w; simpl.
  - exists []. split; [by rewrite app_nil_r|apply paced_end].
  - unfold bind.
    destruct (handle_contract_pacing env o mf sd code f w Hf Hd)
      as (blk & Hblk & Hshape).
    destruct (handle_contract env o mf sd code w) as [[sd'|e] w1]; simpl in *.
    + destruct (IH sd' w1) as (evs & Hevs & Hpaced).
      exists (blk ++ evs). split; [by rewrite Hevs, Hblk, app_assoc|].
      by apply Paced_step.
    + exists blk. split; [done|by apply Paced_stop].
Qed.

Lemma main_pacing (env : Env) (o : Options) (f : Fileformat)
    (fs : gmap string File) :
  fileformat o = Fileformat_name f → (delay o > 0)%Z →
  Paced (delay o) (filter is_pacing (trace (run env o fs).2)).
Proof.
  intros Hf Hd. unfold run, main. unfold bind at 1. unfold emit at 1. simpl.
  destruct (negb _); [apply paced_end|].
  destruct (_ && _); [apply paced_end|].
  unfold bind.
  assert (Hsel : Emits (λ e, is_pacing e = false) (select_contracts env o)).
  { unfold select_contracts, call_lookup. emits; done. }
  pose proof (emits_filter is_pacing _ (mkWorld fs [EvCreated]) Hsel) as Hs.
  destruct (select_contracts env o _) as [[[mf codes]|e] w1]; simpl in *.
  - destruct (for_contracts_pacing env o mf (startdate o) codes f w1 Hf Hd)
      as (evs & Hevs & Hpaced).
    rewrite Hevs, Hs. done.
  - rewrite Hs. apply paced_end.
Qed.

Lemma main_no_sleep (env : Env) (o : Options) :
  (delay o ≤ 0)%Z → Emits (λ e, is_sleep e = false) (main env o).
Proof. intros Hd. apply emits_main; done. Qed.

(** C10.  With a positive delay, every contract whose frame was written
    and reported saved is followed at once by one sleep of exactly
    [delay] seconds, the last contract included, and nothing else makes
    the process sleep: not a skipped export error, not a failed write.
    With a delay that is not positive the process never sleeps. *)
Theorem sleeps_after_each_saved_contract
    (env : Env) (o : Options) (f : Fileformat) (fs : gmap string File) :
  fileformat o = Fileformat_name f →
  ((delay o > 0)%Z →
   Paced (delay o) (filter is_pacing (trace (run env o fs).2)))
  ∧ ((delay o ≤ 0)%Z →
     Forall (λ e, is_sleep e = false) (trace (run env o fs).2)).
Proof.
  intros Hf. split; intros Hd.
  - by apply main_pacing with f.
  - by apply run_trace_Forall, main_no_sleep.
Qed.

Lemma sleeps_after_each_saved_contract_witness :
  let env := sample_env failing_AAA in
  let o := sample_options (Some ["AAA"; "BBB"]) None true "PKL" None in
  Paced 1 [EvLog ERROR (ErrorRepr (FinamExportError "throttled"));
           EvToPickle "/data/BBB-DAILY.pkl" three_days None;
           EvLog INFO (DataSaved "/data/BBB-DAILY.pkl");
           EvSleep 1]
  ∧ Forall (λ e, is_sleep e = false) (trace (run env (with_delay 0 o) ∅).2).
Proof.
  intros env o. split.
  - apply (proj1 (sleeps_after_each_saved_contract env o PKL ∅ eq_refl)).
    reflexivity.
  - apply (proj2 (sleeps_after_each_saved_contract env (with_delay 0 o) PKL ∅
                    eq_refl)).
    done.
Defined.

(** *** Writing in place *)

(** C8, as the script has it.  The frame is written straight to the
    destination.  No other path changes.  A write that completes leaves
    the new frame there; when the destination cannot be opened the files
    are as before; when the write fails after the destination was opened
    the error goes up and the destination is left partially written. *)
Theorem persist_writes_in_place
    (env : Env) (o : Options) (p : string) (c : option string)
    (L D : DataFrame) (f : Fileformat) (w : World) :
  fileformat o = Fileformat_name f →
  let r := persist env o p c L D w in
  let data := if binary_family f && append_flag o
              then drop_duplicates (pd_concat L D) else D in
  let written := if binary_family f then Pickled data
                 else Text data (lineterm o) in
  (∀ q, q ≠ p → files r.2 !! q = files w !! q)
  ∧ match disk env p with
    | NoFault => r.1 = Returns () ∧ files r.2 !! p = Some written
    | OpenFails => r.1 = Raises OSError ∧ files r.2 = files w
    | WriteFails => r.1 = Raises OSError ∧ files r.2 !! p = Some Partial
    end.
Proof.
  intros Hf. unfold persist. rewrite Hf, slice3_csv_family, slice3_pkl_family.
  unfold to_csv, to_pickle, write_file.
  destruct f, (append_flag o), (disk env p); simpl;
    unfold bind, log, emit, store, raise, ret; simpl;
    (split; [intros q Hq; by rewrite ?lookup_insert_ne by done
            |split; [done|by rewrite ?lookup_insert_eq]]).
Qed.

Lemma persist_writes_in_place_witness :
  let env := sample_env_on (λ _, inr three_days) failing_disk in
  let o := sample_options (Some ["AAA"]) None true "PKL" None in
  let w := mkWorld {[ "/data/AAA-DAILY.pkl" := Pickled two_days ]} [] in
  (persist env o "/data/AAA-DAILY.pkl" None [] three_days w).1 = Raises OSError
  ∧ files (persist env o "/data/AAA-DAILY.pkl" None [] three_days w).2
      !! "/data/AAA-DAILY.pkl" = Some Partial
  ∧ files (persist env o "/data/BBB-DAILY.pkl" None [] three_days w).2
      !! "/data/BBB-DAILY.pkl" = Some (Pickled three_days).
Proof.
  intros env o w.
  pose proof (persist_writes_in_place env o "/data/AAA-DAILY.pkl" None []
                three_days PKL w eq_refl) as [_ HA].
  pose proof (persist_writes_in_place env o "/data/BBB-DAILY.pkl" None []
                three_days PKL w eq_refl) as [_ HB].
  split; [exact (proj1 HA)|]. split; [exact (proj2 HA)|exact (proj2 HB)].
Defined.

(** C8 as stated fails: the local file of AAA holds two days; the write
    of the new frame fails midway; the run stops with the error and the
    file is left partially written. *)
Lemma failed_write_leaves_partial_file :
  let env := sample_env_on (λ _, inr three_days) failing_disk in
  let o := sample_options (Some ["AAA"]) None true "PKL" None in
  let fs : gmap string File := {[ "/data/AAA-DAILY.pkl" := Pickled two_days ]} in
  fs !! "/data/AAA-DAILY.pkl" = Some (Pickled two_days)
  ∧ (run env o fs).1 = Raises OSError
  ∧ files (run env o fs).2 !! "/data/AAA-DAILY.pkl" = Some Partial.
Proof. vm_compute. done. Qed.

(** *** Running the script a second time *)

Section second_run.
Context (env : Env) (o : Options) (mf : option string).
Hypothesis append_on : append_flag o = true.
Hypothesis text_off : String.eqb (slice3 (fileformat o)) "CSV" = false.
Hypothesis same_data : start_date_blind (exporter env).

Lemma export_answer_blind (c : Contract.t) (s s' : datetime) :
  export_answer env o c s = export_answer env o c s'.
Proof using same_data.
  unfold export_answer. by rewrite (same_data _ s s').
Qed.

Lemma persist_append_files (p : string) (z : option string) (L D : DataFrame)
    (w : World) :
  files (persist env o p z L D w).2 = written_files env o p L D (files w)
  ∧ (persist env o p z L D w).1
    = if String.eqb (slice3 (fileformat o)) "PKL"
      then match disk env p with
           | NoFault => Returns ()
           | _ => Raises OSError
           end
      else Returns ().
Proof using append_on text_off.
  unfold persist, written_files. rewrite text_off, append_on.
  unfold to_pickle, write_file.
  destruct (String.eqb (slice3 (fileformat o)) "PKL"); [destruct (disk env p)|];
    unfold bind, log, emit, store, raise, ret; simpl; done.
Qed.

Lemma pace_keeps_files (w : World) :
  files (pace o w).2 = files w ∧ (pace o w).1 = Returns ().
Proof. by rewrite pace_run. Qed.

(** The files and the outcome of [finish], by the answer to the export
    request. *)
Lemma finish_files (c : Contract.t) (L : DataFrame) (sd : datetime) (w : World) :
  match export_answer env o c sd with
  | inl e =>
      files (finish env o c (L, sd) w).2 = files w
      ∧ (finish env o c (L, sd) w).1
        = if is_FinamExportError e && skiperr o then Returns sd else Raises e
  | inr D =>
      files (finish env o c (L, sd) w).2
      = written_files env o (destpath_of o c) L D (files w)
      ∧ (finish env o c (L, sd) w).1
        = if String.eqb (slice3 (fileformat o)) "PKL"
          then match disk env (destpath_of o c) with
               | NoFault => Returns sd
               | _ => Raises OSError
               end
          else Returns sd
  end.
Proof using append_on text_off.
  unfold export_answer, finish, fetch, try_except, call_download, Market, log,
    bind, emit, from_sum, ret, raise.
  destruct (Market_value env (Contract.market c)); simpl; [|done].
  destruct (download _ _ _ _ _ _) as [e|D]; simpl.
  - destruct (is_FinamExportError e); simpl; [|done].
    by destruct (skiperr o).
  - set (w1 := mkWorld _ _).
    destruct (persist_append_files (destpath_of o c) (compression_for o c) L D w1)
      as [Hf Ho].
    change (files w1) with (files w) in Hf.
    destruct (persist _ _ _ _ _ _ w1) as [[[]|e] w2]; simpl in *.
    + destruct (pace_keeps_files w2) as [Hpf Hpo].
      destruct (pace o w2) as [[[]|e] w3]; simpl in *; [|done].
      split; [by rewrite Hpf, Hf|]. revert Ho.
      destruct (String.eqb (slice3 (fileformat o)) "PKL"); [|done].
      by destruct (disk env (destpath_of o c)).
    + split; [done|]. revert Ho.
      destruct (String.eqb (slice3 (fileformat o)) "PKL"); [|done].
      destruct (disk env (destpath_of o c)); congruence.
Qed.

(** What [prepare] returned, read back from the files. *)
Lemma prepare_returns_inv (sd sd' : datetime) (code : string) (c : Contract.t)
    (L : DataFrame) (w w2 : World) :
  prepare env o mf sd code w = (Returns (c, (L, sd')), w2) →
  (∃ cs, lookup (exporter env) (Some code) mf = inr (c :: cs))
  ∧ files w2 = files w
  ∧ ((files w !! destpath_of o c = Some (Pickled L)
      ∧ ∃ r, iloc_last L = Some r ∧ strptime_Ymd (astype_str (DATE r)) = Some sd')
     ∨ (files w !! destpath_of o c = None ∧ L = [] ∧ sd' = sd)).
Proof using append_on.
  unfold prepare, resolve, plan, try_except, call_lookup, path_exists,
    read_pickle, from_option, from_sum, log, bind, emit, ret, raise.
  rewrite append_on. simpl. intros H.
  repeat (case_match; simpl in *; simplify_eq); try done.
  - destruct a as [|c' cs]; simplify_eq/=. eauto 10.
  - destruct a as [|c' cs]; simplify_eq/=.
    split; [eauto|]. split; [done|]. right.
    done.
Qed.

(** The outcome of [prepare] is read from the remote service and the
    files alone: from the same files it raises again, or returns the
    same contract and local frame again. *)
Lemma prepare_again (sd sd' : datetime) (code : string)
    (fs : gmap string File) (tr tr' : list Event) :
  match (prepare env o mf sd code (mkWorld fs tr)).1 with
  | Raises e => (prepare env o mf sd' code (mkWorld fs tr')).1 = Raises e
  | Returns (c, (L, _)) =>
      ∃ sd2, (prepare env o mf sd' code (mkWorld fs tr')).1
             = Returns (c, (L, sd2))
  end.
Proof using append_on.
  unfold prepare, resolve, plan, try_except, call_lookup, path_exists,
    read_pickle, from_option, from_sum, log, bind, emit, ret, raise.
  rewrite append_on. simpl.
  repeat (case_match; simpl in *; simplify_eq); eauto.
Qed.

Lemma handle_contract_split (sd : datetime) (code : string) (w : World) :
  handle_contract env o mf sd code w
  = match prepare env o mf sd code w with
    | (Returns (c, planned), w2) => finish env o c planned w2
    | (Raises e, w2) => (Raises e, w2)
    end.
Proof.
  rewrite handle_contract_prepare. unfold bind.
  by destruct (prepare env o mf sd code w) as [[[c planned]|e] w2].
Qed.

Lemma drop_duplicates_absorbs (M D : DataFrame) :
  NoDup M → D ⊆ M → drop_duplicates (pd_concat M D) = M.
Proof.
  intros Hnd Hsub. unfold drop_duplicates, pd_concat.
  rewrite drop_duplicates_from_app.
  rewrite (drop_duplicates_from_NoDup [] M Hnd)
    by (intros x _; apply not_elem_of_nil).
  rewrite drop_duplicates_from_seen; [apply app_nil_r|].
  intros x Hx. rewrite app_nil_r. by apply Hsub.
Qed.

(** A settled code is handled without any change to the files. *)
Lemma settled_unchanged (fs : gmap string File) (code : string)
    (sd : datetime) (tr : list Event) :
  Settled env o mf fs code →
  files (handle_contract env o mf sd code (mkWorld fs tr)).2 = fs.
Proof using All.
  intros Hset. rewrite handle_contract_split.
  pose proof (prepare_keeps_files env o mf sd code (mkWorld fs tr)) as Hkeep.
  destruct (prepare env o mf sd code (mkWorld fs tr))
    as [[[c [L sd1]]|e] w2] eqn:Hp; simpl in *; [|done].
  apply prepare_returns_inv in Hp as ((cs & Hl) & _ & Hcase). simpl in *.
  pose proof (finish_files c L sd1 w2) as Hfin.
  destruct (export_answer env o c sd1) as [e|D] eqn:Hd.
  - destruct Hfin as [-> _]. done.
  - destruct Hfin as [-> _]. rewrite Hkeep. unfold written_files.
    destruct (String.eqb (slice3 (fileformat o)) "PKL") eqn:Hpkl; [|done].
    rewrite (export_answer_blind c sd1 (startdate o)) in Hd.
    destruct (Hset c cs D Hl Hd Hpkl) as (M & HM & Hnd & Hsub & Hdisk).
    rewrite Hdisk.
    destruct Hcase as [[HL _]|[HL _]]; rewrite HM in HL; simplify_eq.
    rewrite drop_duplicates_absorbs by done. by apply insert_id.
Qed.

(** A code whose handling returned to the loop is settled. *)
Lemma returned_settled (fs : gmap string File) (code : string)
    (sd sd' : datetime) (tr : list Event) (w1 : World) :
  handle_contract env o mf sd code (mkWorld fs tr) = (Returns sd', w1) →
  Settled env o mf (files w1) code.
Proof using All.
  rewrite handle_contract_split.
  pose proof (prepare_keeps_files env o mf sd code (mkWorld fs tr)) as Hkeep.
  destruct (prepare env o mf sd code (mkWorld fs tr))
    as [[[c [L sd1]]|e] w2] eqn:Hp; simpl in *; [|done].
  apply prepare_returns_inv in Hp as ((cs & Hl) & _ & Hcase). simpl in *.
  pose proof (finish_files c L sd1 w2) as Hfin. intros Hrun.
  rewrite Hrun in Hfin. simpl in Hfin.
  intros c' cs' D' Hl' Hd' Hpkl. rewrite Hl in Hl'. simplify_eq.
  rewrite (export_answer_blind c' (startdate o) sd1) in Hd'.
  rewrite Hd' in Hfin.
  destruct Hfin as [Hfiles Hout]. rewrite Hpkl in Hout.
  destruct (disk env (destpath_of o c')) eqn:Hdisk; try done.
  rewrite Hfiles. unfold written_files. rewrite Hpkl, Hdisk.
  exists (drop_duplicates (pd_concat L D')).
  split; [apply lookup_insert_eq|]. split; [apply NoDup_drop_duplicates_from|].
  split; [|done].
  intros x Hx. unfold drop_duplicates, pd_concat.
  rewrite elem_of_drop_duplicates_from, elem_of_app.
  split; [by right|apply not_elem_of_nil].
Qed.

(** Handling any code keeps a settled code settled. *)
Lemma settled_kept (fs : gmap string File) (code code' : string)
    (sd : datetime) (tr : list Event) :
  Settled env o mf fs code →
  Settled env o mf
    (files (handle_contract env o mf sd code' (mkWorld fs tr)).2) code.
Proof using All.
  intros Hset. rewrite handle_contract_split.
  pose proof (prepare_keeps_files env o mf sd code' (mkWorld fs tr)) as Hkeep.
  destruct (prepare env o mf sd code' (mkWorld fs tr))
    as [[[c' [L' sd1]]|e] w2] eqn:Hp; simpl in *; [|by rewrite Hkeep].
  apply prepare_returns_inv in Hp as (_ & _ & Hcase). simpl in *.
  pose proof (finish_files c' L' sd1 w2) as Hfin.
  destruct (export_answer env o c' sd1) as [e|D'] eqn:Hd'.
  { destruct Hfin as [-> _]. by rewrite Hkeep. }
  destruct Hfin as [-> _]. rewrite Hkeep.
  intros c cs D Hl Hd Hpkl.
  destruct (Hset c cs D Hl Hd Hpkl) as (M & HM & Hnd & Hsub & Hdisk).
  unfold written_files. rewrite Hpkl.
  destruct (decide (destpath_of o c' = destpath_of o c)) as [Heq|Hne].
  - rewrite Heq in *. rewrite Hdisk.
    destruct Hcase as [[HL _]|[HL _]]; rewrite HM in HL; simplify_eq.
    exists (drop_duplicates (pd_concat L' D')).
    split; [apply lookup_insert_eq|]. split; [apply NoDup_drop_duplicates_from|].
    split; [|done].
    intros x Hx. unfold drop_duplicates, pd_concat.
    rewrite elem_of_drop_duplicates_from, elem_of_app.
    split; [left; by apply Hsub|apply not_elem_of_nil].
  - exists M. destruct (disk env (destpath_of o c'));
      rewrite ?lookup_insert_ne by done; done.
Qed.

Lemma prepare_partial (fs : gmap string File) (code : string) (c : Contract.t)
    (cs : list Contract.t) (sd : datetime) (tr : list Event) :
  lookup (exporter env) (Some code) mf = inr (c :: cs) →
  fs !! destpath_of o c = Some Partial →
  (prepare env o mf sd code (mkWorld fs tr)).1
  = Raises (unpickling env (destpath_of o c) Partial).
Proof using append_on.
  intros Hl Hp.
  unfold prepare, resolve, plan, try_except, call_lookup, path_exists,
    read_pickle, from_option, from_sum, log, bind, emit, ret, raise.
  rewrite append_on. simpl. rewrite Hl. simpl. rewrite Hp. simpl.
  by rewrite Hp.
Qed.

(** A code whose handling left the loop with an exception leaves it
    again from the files it left, without changing them. *)
Lemma raised_again (fs : gmap string File) (code : string)
    (sd sd' : datetime) (tr tr' : list Event) (e : Exc) (w1 : World) :
  handle_contract env o mf sd code (mkWorld fs tr) = (Raises e, w1) →
  (∃ e', (handle_contract env o mf sd' code (mkWorld (files w1) tr')).1
         = Raises e')
  ∧ files (handle_contract env o mf sd' code (mkWorld (files w1) tr')).2
    = files w1.
Proof using All.
  rewrite !handle_contract_split.
  pose proof (prepare_keeps_files env o mf sd code (mkWorld fs tr)) as Hkeep.
  pose proof (prepare_again sd sd' code fs tr tr') as Hagain.
  destruct (prepare env o mf sd code (mkWorld fs tr))
    as [[[c [L sd1]]|e0] w2] eqn:Hp; simpl in *.
  - apply prepare_returns_inv in Hp as ((cs & Hl) & _ & Hcase). simpl in *.
    destruct Hagain as (sd2 & Hagain).
    pose proof (finish_files c L sd1 w2) as Hfin. intros Hrun.
    rewrite Hrun in Hfin. simpl in Hfin.
    destruct (export_answer env o c sd1) as [e1|D] eqn:Hd.
    + destruct Hfin as [Hfiles Hout]. rewrite Hfiles, Hkeep.
      pose proof (prepare_keeps_files env o mf sd' code (mkWorld fs tr')) as Hkeep'.
      destruct (prepare env o mf sd' code (mkWorld fs tr'))
        as [[[c' [L' sd3]]|e0] w3]; simpl in *; simplify_eq.
      pose proof (finish_files c L sd2 w3) as Hfin'.
      rewrite (export_answer_blind c sd2 sd1), Hd in Hfin'.
      destruct Hfin' as [-> ->]. split; [|done].
      destruct (is_FinamExportError e1 && skiperr o); [done|eauto].
    + destruct Hfin as [Hfiles Hout].
      destruct (String.eqb (slice3 (fileformat o)) "PKL") eqn:Hpkl; [|done].
      unfold written_files in Hfiles. rewrite Hpkl in Hfiles.
      destruct (disk env (destpath_of o c)) eqn:Hdisk; [done| |].
      * rewrite Hfiles, Hkeep.
        pose proof (prepare_keeps_files env o mf sd' code (mkWorld fs tr')) as Hkeep'.
        destruct (prepare env o mf sd' code (mkWorld fs tr'))
          as [[[c' [L' sd3]]|e0] w3]; simpl in *; simplify_eq.
        pose proof (finish_files c L sd2 w3) as Hfin'.
        rewrite (export_answer_blind c sd2 sd1), Hd, Hpkl, Hdisk in Hfin'.
        destruct Hfin' as [-> ->]. split; [eauto|].
        unfold written_files. by rewrite Hpkl, Hdisk.
      * rewrite Hfiles, Hkeep.
        pose proof (prepare_partial (<[destpath_of o c:=Partial]> fs) code c cs
                      sd' tr' Hl (lookup_insert_eq _ _ _)) as Hpart.
        pose proof (prepare_keeps_files env o mf sd' code
                      (mkWorld (<[destpath_of o c:=Partial]> fs) tr')) as Hkeep'.
        destruct (prepare env o mf sd' code
                    (mkWorld (<[destpath_of o c:=Partial]> fs) tr'))
          as [[[c' [L' sd3]]|e0] w3]; simpl in *; simplify_eq.
        split; [eauto|done].
  - intros [= <- <-]. rewrite Hkeep.
    pose proof (prepare_keeps_files env o mf sd' code (mkWorld fs tr')) as Hkeep'.
    destruct (prepare env o mf sd' code (mkWorld fs tr'))
      as [[[c' [L' sd3]]|e1] w3]; simpl in *; simplify_eq.
    split; [eauto|done].
Qed.

Lemma settled_kept_loop (code : string) (codes : list string)
    (fs : gmap string File) (sd : datetime) (tr : list Event) :
  Settled env o mf fs code →
  Settled env o mf
    (files (for_contracts env o mf sd codes (mkWorld fs tr)).2) code.
Proof using All.
  revert fs sd tr. induction codes as [|code' rest IH]; intros fs sd tr Hset.
  - done.
  - simpl. unfold bind.
    pose proof (settled_kept fs code code' sd tr Hset) as Hstep.
    destruct (handle_contract env o mf sd code' (mkWorld fs tr))
      as [[sd1|e] [fs1 tr1]]; simpl in *; [|done].
    by apply IH.
Qed.

(** Running the loop again from the files it left changes no file. *)
Lemma loop_unchanged_second_time (codes : list string) (sd sd' : datetime)
    (fs left : gmap string File) (tr tr' : list Event) :
  left = files (for_contracts env o mf sd codes (mkWorld fs tr)).2 →
  files (for_contracts env o mf sd' codes (mkWorld left tr')).2 = left.
Proof using All.
  revert sd sd' fs left tr tr'.
  induction codes as [|code rest IH]; intros sd sd' fs left tr tr' Hleft;
    [done|].
  simpl in *. unfold bind in Hleft.
  destruct (handle_contract env o mf sd code (mkWorld fs tr))
    as [[sd1|e] [fs1 tr1]] eqn:Hstep; simpl in Hleft.
  - assert (Hset : Settled env o mf left code).
    { rewrite Hleft. apply settled_kept_loop.
      by apply (returned_settled _ _ _ _ _ _ Hstep). }
    pose proof (settled_unchanged left code sd' tr' Hset) as Hsame.
    unfold bind.
    destruct (handle_contract env o mf sd' code (mkWorld left tr'))
      as [[sd2|e2] [fs2 tr2]]; simpl in Hsame; simpl; [|exact Hsame].
    rewrite Hsame. by apply IH with sd1 fs1 tr1.
  - subst left.
    destruct (raised_again fs code sd sd' tr tr' e _ Hstep) as [[e' He'] Hfiles].
    simpl in *. unfold bind.
    destruct (handle_contract env o mf sd' code (mkWorld fs1 tr'))
      as [[sd2|e2] [fs2 tr2]]; simpl in *; done.
Qed.
End second_run.

Lemma run_rejected_files (env : Env) (o : Options) (fs : gmap string File) :
  truthy_list (contracts o) || truthy_str (market o) = false
  ∨ truthy_str (append o) && String.eqb (slice3 (fileformat o)) "CSV" = true →
  files (run env o fs).2 = fs.
Proof.
  unfold run, main, bind, emit, raise. simpl.
  intros [->| ->]; simpl; [done|]. by destruct (negb _).
Qed.

Lemma select_contracts_again (env : Env) (o : Options) (w w' : World) :
  (select_contracts env o w).1 = (select_contracts env o w').1
  ∧ files (select_contracts env o w).2 = files w.
Proof.
  unfold select_contracts, call_lookup, from_sum, bind, emit, ret, raise.
  simpl. repeat (case_match; simpl in *; simplify_eq); done.
Qed.

Lemma main_unchanged_second_time (env : Env) (o : Options)
    (fs : gmap string File) :
  append_flag o = true →
  start_date_blind (exporter env) →
  files (run env o (files (run env o fs).2)).2 = files (run env o fs).2.
Proof.
  intros Ha Hblind.
  destruct (truthy_list (contracts o) || truthy_str (market o)) eqn:Hany;
    [|by rewrite !run_rejected_files by auto].
  destruct (truthy_str (append o) && String.eqb (slice3 (fileformat o)) "CSV")
    eqn:Hcheck; [by rewrite !run_rejected_files by auto|].
  assert (Htext : String.eqb (slice3 (fileformat o)) "CSV" = false).
  { unfold append_flag in Ha. apply bool_decide_eq_true in Ha.
    rewrite Ha in Hcheck. exact Hcheck. }
  rewrite !main_goes_on by done. unfold bind.
  set (w0 := mkWorld fs [EvCreated]).
  destruct (select_contracts_again env o w0
              (mkWorld (files (let (out, w') := select_contracts env o w0 in
                               match out with
                               | Returns a =>
                                   for_contracts env o a.1 (startdate o) a.2 w'
                               | Raises e => (Raises e, w')
                               end).2) [EvCreated])) as [Hout Hfiles].
  destruct (select_contracts_again env o
              (mkWorld (files (let (out, w') := select_contracts env o w0 in
                               match out with
                               | Returns a =>
                                   for_contracts env o a.1 (startdate o) a.2 w'
                               | Raises e => (Raises e, w')
                               end).2) [EvCreated]) w0) as [_ Hfiles'].
  destruct (select_contracts env o w0) as [[[mf codes]|e] [fs0 tr0]];
    simpl in *.
  - destruct (select_contracts env o _) as [[[mf' codes']|e'] [fs2 tr2]];
      simpl in *; simplify_eq.
    by eapply loop_unchanged_second_time.
  - destruct (select_contracts env o _) as [[[mf' codes']|e'] [fs2 tr2]];
      simpl in *; simplify_eq. done.
Qed.



(** *** Splitting the contract list *)

Lemma prefix_comma (c : ascii) (rest : string) :
  String.prefix "," (String c rest) = Ascii.eqb c ",".
Proof.
  cbn -[ascii_dec]. destruct (ascii_dec _ c) as [<-|Hne].
  - by destruct rest.
  - symmetry. apply Ascii.eqb_neq. congruence.
Qed.

Lemma split_comma_cons (c : ascii) (rest : string) :
  split_from "," 0 (String c rest)
  = if Ascii.eqb c "," then "" :: split_from "," 0 rest
    else match split_from "," 0 rest with
         | piece :: pieces => String c piece :: pieces
         | [] => [String c ""]
         end.
Proof.
  change (split_from "," 0 (String c rest)) with
    (if String.prefix "," (String c rest)
     then "" :: split_from "," 0 rest
     else match split_from "," 0 rest with
          | piece :: pieces => String c piece :: pieces
          | [] => [String c ""]
          end).
  by rewrite prefix_comma.
Qed.

Lemma split_comma_nonempty (s : string) : split_from "," 0 s ≠ [].
Proof.
  induction s as [|c rest IH]; [done|]. rewrite split_comma_cons.
  destruct (Ascii.eqb c ","); [done|].
  by destruct (split_from "," 0 rest).
Qed.

Lemma join_cons_cons (sep a b : string) (l : list string) :
  str_join sep (a :: b :: l) = a +:+ sep +:+ str_join sep (b :: l).
Proof. done. Qed.

Lemma join_split_comma (s : string) : str_join "," (split_from "," 0 s) = s.
Proof.
  induction s as [|c rest IH]; [done|]. rewrite split_comma_cons.
  pose proof (split_comma_nonempty rest) as Hne.
  destruct (Ascii.eqb_spec c ",") as [->|Hc].
  - destruct (split_from "," 0 rest) as [|p ps]; [done|].
    rewrite join_cons_cons, IH. done.
  - destruct (split_from "," 0 rest) as [|p ps]; [done|].
    destruct ps as [|q ps].
    + simpl in *. by rewrite IH.
    + rewrite join_cons_cons in *.
      change (String c p +:+ "," +:+ str_join "," (q :: ps))
        with (String c (p +:+ "," +:+ str_join "," (q :: ps))).
      by rewrite IH.
Qed.

Lemma split_comma_pieces (s : string) :
  Forall (λ piece, commas piece = 0) (split_from "," 0 s).
Proof.
  induction s as [|c rest IH]; [by repeat constructor|].
  rewrite split_comma_cons.
  destruct (Ascii.eqb c ",") eqn:Hc; [by constructor|].
  destruct (split_from "," 0 rest) as [|p ps]; [by repeat constructor; simpl; rewrite Hc|].
  inversion IH as [|? ? Hp Hps]; subst.
  constructor; [|done]. simpl. by rewrite Hc.
Qed.

Lemma split_comma_length (s : string) :
  length (split_from "," 0 s) = S (commas s).
Proof.
  induction s as [|c rest IH]; [done|]. rewrite split_comma_cons. simpl.
  destruct (Ascii.eqb c ","); simpl; [by rewrite IH|].
  pose proof (split_comma_nonempty rest).
  by destruct (split_from "," 0 rest).
Qed.

Lemma split_comma_free (s : string) :
  commas s = 0 → split_from "," 0 s = [s].
Proof.
  induction s as [|c rest IH]; [done|]. intros H. simpl in H.
  rewrite split_comma_cons.
  destruct (Ascii.eqb c ","); [done|]. by rewrite IH.
Qed.

Lemma split_comma_app (a b : string) :
  commas a = 0 →
  split_from "," 0 (a +:+ "," +:+ b) = a :: split_from "," 0 b.
Proof.
  induction a as [|c a IH]; intros Ha.
  - change ("" +:+ "," +:+ b) with (String "," b). by rewrite split_comma_cons.
  - change (String c a +:+ "," +:+ b) with (String c (a +:+ "," +:+ b)).
    rewrite split_comma_cons. simpl in Ha.
    destruct (Ascii.eqb c ","); [done|]. by rewrite IH.
Qed.

Lemma split_join_comma (items : list string) :
  items ≠ [] → Forall (λ piece, commas piece = 0) items →
  split_from "," 0 (str_join "," items) = items.
Proof.
  intros Hne Hall. induction Hall as [|a l Ha Hl IH]; [done|].
  destruct l as [|b l].
  - simpl. by apply split_comma_free.
  - rewrite join_cons_cons, split_comma_app by done. f_equal. by apply IH.
Qed.

(** X1.  Given a value, [_arg_split] never fails: it returns the pieces
    of the value between its commas, at least one piece, one more than
    there are commas, none holding a comma, and joining them with commas
    gives the value back. *)
Theorem arg_split_pieces (param value : string) :
  ∃ items,
    _arg_split param (Some value) = inr (Some items)
    ∧ items ≠ []
    ∧ length items = S (commas value)
    ∧ Forall (λ piece, commas piece = 0) items
    ∧ str_join "," items = value.
Proof.
  exists (split_from "," 0 value). split; [done|].
  split; [apply split_comma_nonempty|]. split; [apply split_comma_length|].
  split; [apply split_comma_pieces|apply join_split_comma].
Qed.

(** X2.  [_arg_split] gives back any non-empty list of comma-free codes
    from the text that joins them with commas. *)
Theorem arg_split_of_joined (param : string) (items : list string) :
  items ≠ [] → Forall (λ piece, commas piece = 0) items →
  _arg_split param (Some (str_join "," items)) = inr (Some items).
Proof.
  intros Hne Hall. unfold _arg_split, str_split.
  by rewrite split_join_comma.
Qed.

Lemma arg_split_of_joined_witness :
  _arg_split "contracts" (Some "AAA,,BBB") = inr (Some ["AAA"; ""; "BBB"]).
Proof.
  apply (arg_split_of_joined "contracts" ["AAA"; ""; "BBB"]); [done|].
  repeat constructor.
Defined.

(** X3.  When [--contracts] is given a value, be it the empty text, and
    no market, the run is not rejected for want of contracts: unless a
    text format meets the append option, it handles the pieces of the
    value in order, an empty piece being a code like the others. *)
Theorem given_contracts_are_handled (env : Env) (o : Options)
    (fs : gmap string File) (param value : string) :
  _arg_split param (Some value) = inr (contracts o) →
  truthy_str (market o) = false →
  truthy_str (append o) && String.eqb (slice3 (fileformat o)) "CSV" = false →
  ∃ code codes,
    split_from "," 0 value = code :: codes
    ∧ run env o fs
      = for_contracts env o None (startdate o) (code :: codes)
          (mkWorld fs [EvCreated]).
Proof.
  intros Hsplit Hm Hcheck. unfold _arg_split, str_split in Hsplit.
  injection Hsplit as Hc.
  pose proof (split_comma_nonempty value) as Hne.
  destruct (split_from "," 0 value) as [|code codes] eqn:Hs; [done|].
  exists code, codes. split; [done|].
  rewrite main_goes_on; [|by rewrite <- Hc|done].
  unfold select_contracts, bind. rewrite Hm, <- Hc. done.
Qed.

Lemma given_contracts_are_handled_witness :
  let env := sample_env (λ _, inr three_days) in
  let o := sample_options (Some [""]) None true "PKL" None in
  run env o ∅
  = (Raises (SystemExit 1),
     mkWorld ∅ [EvCreated; EvLog INFO (Handling ""); EvLookup (Some "") None;
                EvLog ERROR (UnknownContract "")]).
Proof.
  intros env o.
  destruct (given_contracts_are_handled env o ∅ "contracts" ""
              eq_refl eq_refl eq_refl) as (code & codes & Hs & ->).
  injection Hs as <- <-. reflexivity.
Defined.

(** *** Lookups *)

(** X4.  A code the lookup does not know ends the run: the error is
    logged and the script exits with status 1, whatever [skiperr] says,
    before any export request and without touching a file; the
    remaining codes are not handled.  Any other exception of the lookup
    goes up as it is, and a lookup that answers with no row raises
    [IndexError]. *)
Theorem failed_lookup_ends_the_loop (env : Env) (o : Options)
    (mf : option string) (sd : datetime) (code : string) (rest : list string)
    (w : World) :
  let tried := trace w ++ [EvLog INFO (Handling code); EvLookup (Some code) mf] in
  match lookup (exporter env) (Some code) mf with
  | inl e =>
      for_contracts env o mf sd (code :: rest) w
      = if is_FinamObjectNotFoundError e
        then (Raises (SystemExit 1),
              mkWorld (files w) (tried ++ [EvLog ERROR (UnknownContract code)]))
        else (Raises e, mkWorld (files w) tried)
  | inr [] =>
      for_contracts env o mf sd (code :: rest) w
      = (Raises IndexError, mkWorld (files w) tried)
  | inr (c :: _) =>
      for_contracts env o mf sd (code :: rest) w
      = bind (handle_resolved env o sd c)
             (λ sd', for_contracts env o mf sd' rest)
             (mkWorld (files w) tried)
  end.
Proof.
  intros tried.
  assert (Hstep : for_contracts env o mf sd (code :: rest) w
                  = match resolve env mf code w with
                    | (Returns c, w1) =>
                        bind (handle_resolved env o sd c)
                             (λ sd', for_contracts env o mf sd' rest) w1
                    | (Raises e, w1) => (Raises e, w1)
                    end).
  { simpl. unfold bind at 1. rewrite handle_contract_resolved.
    unfold bind. by destruct (resolve env mf code w) as [[c|e] w1]. }
  assert (Hres : resolve env mf code w
                 = match lookup (exporter env) (Some code) mf with
                   | inl e =>
                       if is_FinamObjectNotFoundError e
                       then (Raises (SystemExit 1),
                             mkWorld (files w)
                               (tried ++ [EvLog ERROR (UnknownContract code)]))
                       else (Raises e, mkWorld (files w) tried)
                   | inr [] => (Raises IndexError, mkWorld (files w) tried)
                   | inr (c :: _) => (Returns c, mkWorld (files w) tried)
                   end).
  { subst tried.
    unfold resolve, try_except, call_lookup, from_sum, from_option, log, bind,
      emit, ret, raise. simpl.
    destruct (lookup (exporter env) (Some code) mf) as [e|[|c cs]]; simpl;
      [destruct (is_FinamObjectNotFoundError e); simpl|..];
      by rewrite <- ?app_assoc. }
  rewrite Hstep, Hres.
  destruct (lookup (exporter env) (Some code) mf) as [e|[|c cs]]; [|done..].
  by destruct (is_FinamObjectNotFoundError e).
Qed.

(** X5.  With a market and no contract list, the run first asks the
    lookup for the whole market.  If that lookup raises, not-found
    included, the exception goes up as it is: nothing is logged and the
    script does not exit with status 1.  Otherwise the codes of the rows
    it returns are handled in the order returned, each looked up within
    the market. *)
Theorem market_wide_lookup (env : Env) (o : Options) (fs : gmap string File) :
  truthy_str (market o) = true →
  truthy_list (contracts o) = false →
  truthy_str (append o) && String.eqb (slice3 (fileformat o)) "CSV" = false →
  let asked := mkWorld fs [EvCreated; EvLookup None (market o)] in
  run env o fs
  = match lookup (exporter env) None (market o) with
    | inl e => (Raises e, asked)
    | inr found =>
        for_contracts env o (market o) (startdate o) (Contract.code <$> found)
                      asked
    end.
Proof.
  intros Hm Hc Hcheck asked.
  rewrite main_goes_on; [|by rewrite Hm, orb_true_r|done].
  unfold select_contracts. rewrite Hm, Hc. simpl.
  unfold call_lookup, from_sum, bind, emit, ret, raise. simpl.
  by destruct (lookup (exporter env) None (market o)).
Qed.

Lemma market_wide_lookup_witness :
  let env := sample_env (λ _, inr three_days) in
  let o := sample_options None (Some "SHARES") true "PKL" None in
  run env o ∅
  = for_contracts env o (Some "SHARES") (mkDate 2020 1 1) ["AAA"; "BBB"]
      (mkWorld ∅ [EvCreated; EvLookup None (Some "SHARES")]).
Proof.
  intros env o.
  apply (market_wide_lookup env o ∅ eq_refl eq_refl eq_refl).
Defined.

Lemma handle_resolved_no_lookup (env : Env) (o : Options) (sd : datetime)
    (c : Contract.t) :
  Emits (λ e, is_lookup e = false) (handle_resolved env o sd c).
Proof.
  unfold handle_resolved, finish.
  apply emits_bind; [by apply emits_emit|intros _].
  apply emits_bind; [by apply emits_plan|intros planned].
  apply emits_bind; [by apply emits_fetch|intros [D|]]; [|apply emits_ret].
  apply emits_bind; [by apply emits_persist|intros _].
  apply emits_bind; [by apply emits_pace|intros _; apply emits_ret].
Qed.

Lemma handle_contract_one_lookup (env : Env) (o : Options) (mf : option string)
    (sd : datetime) (code : string) (w : World) :
  filter is_lookup (trace (handle_contract env o mf sd code w).2)
  = filter is_lookup (trace w) ++ [EvLookup (Some code) mf].
Proof.
  rewrite handle_contract_resolved. unfold bind.
  assert (Hres : filter is_lookup (trace (resolve env mf code w).2)
                 = filter is_lookup (trace w) ++ [EvLookup (Some code) mf]).
  { unfold resolve, try_except, call_lookup, from_sum, from_option, log, bind,
      emit, ret, raise. simpl.
    destruct (lookup (exporter env) (Some code) mf) as [e|[|c cs]]; simpl;
      [destruct (is_FinamObjectNotFoundError e); simpl|..];
      rewrite !filter_app; simpl; by rewrite ?app_nil_r. }
  destruct (resolve env mf code w) as [[c|e] w1]; simpl in *; [|done].
  rewrite <- Hres.
  apply (emits_filter is_lookup), handle_resolved_no_lookup.
Qed.

(** X6.  The loop looks each code up exactly once, in the order of the
    list and within the market filter, before anything else is done for
    it: the lookups of a loop that returns are those of all its codes,
    and the lookups of a loop that raises are those of the codes up to
    the one that raised. *)
Theorem one_lookup_per_code (env : Env) (o : Options) (mf : option string)
    (sd : datetime) (codes : list string) (w : World) :
  ∃ handled,
    handled `prefix_of` codes
    ∧ filter is_lookup (trace (for_contracts env o mf sd codes w).2)
      = filter is_lookup (trace w) ++ ((λ code, EvLookup (Some code) mf) <$> handled)
    ∧ match (for_contracts env o mf sd codes w).1 with
      | Returns _ => handled = codes
      | Raises _ => handled ≠ []
      end.
Proof.
  revert sd w. induction codes as [|code rest IH]; intros sd w.
  - exists []. simpl. by rewrite app_nil_r.
  - simpl. unfold bind.
    pose proof (handle_contract_one_lookup env o mf sd code w) as Hone.
    destruct (handle_contract env o mf sd code w) as [[sd'|e] w1]; simpl in *.
    + destruct (IH sd' w1) as (handled & Hpre & Hfilter & Hout).
      exists (code :: handled). split; [by apply prefix_cons|].
      split; [by rewrite Hfilter, Hone, <- app_assoc|].
      destruct (for_contracts env o mf sd' rest w1).1; [by subst|done].
    + exists [code]. split; [apply prefix_cons, prefix_nil|]. done.
Qed.

(** *** Runs without append mode *)

Lemma finish_returns_planned (env : Env) (o : Options) (c : Contract.t)
    (planned : DataFrame * datetime) (sd : datetime) (w : World) :
  (finish env o c planned w).1 = Returns sd → sd = planned.2.
Proof.
  unfold finish, bind.
  destruct (fetch env o c planned.2 w) as [[[D|]|e] w1]; simpl; [| |done].
  - destruct (persist _ _ _ _ _ _ w1) as [[[]|e] w2]; simpl; [|done].
    destruct (pace o w2) as [[[]|e] w3]; simpl; [|done]. congruence.
  - unfold ret. simpl. congruence.
Qed.

Lemma handle_contract_off (env : Env) (o : Options) (mf : option string)
    (sd : datetime) (code : string) (w : World) :
  append_flag o = false →
  handle_contract env o mf sd code w
  = bind (resolve env mf code)
         (λ c, bind (log INFO (DownloadingContract c))
                    (λ _, finish env o c ([], sd))) w.
Proof.
  intros Ha. rewrite handle_contract_resolved. unfold handle_resolved, bind.
  destruct (resolve env mf code w) as [[c|e] w1]; [|done].
  destruct (log INFO (DownloadingContract c) w1) as [[[]|e] w2]; [|done].
  by rewrite plan_off.
Qed.

Lemma finish_as_requested (env : Env) (o : Options) (c : Contract.t)
    (L : DataFrame) :
  Emits (as_requested o) (finish env o c (L, startdate o)).
Proof.
  unfold finish, fetch, call_download, Market, log. simpl.
  apply emits_bind.
  - apply emits_try_except.
    + apply emits_bind; [|intros D].
      * apply emits_bind;
          [destruct (Market_value _ _); [apply emits_ret|apply emits_raise]
          |intros member].
        apply emits_bind; [by apply emits_emit|intros _; apply emits_from_sum].
      * apply emits_bind; [by apply emits_emit|intros _; apply emits_ret].
    + intros e k Hk. destruct (is_FinamExportError e); [|done].
      injection Hk as <-. destruct (skiperr o); [|apply emits_raise].
      apply emits_bind; [by apply emits_emit|intros _; apply emits_ret].
  - intros [D|]; [|apply emits_ret].
    apply emits_bind; [by apply emits_persist|intros _].
    apply emits_bind; [by apply emits_pace|intros _; apply emits_ret].
Qed.

Lemma for_contracts_as_requested (env : Env) (o : Options)
    (mf : option string) (codes : list string) :
  append_flag o = false →
  Emits (as_requested o) (for_contracts env o mf (startdate o) codes).
Proof.
  intros Ha. induction codes as [|code rest IH]; [apply emits_ret|].
  intros w. simpl. unfold bind.
  assert (Hone : Emits (as_requested o)
                   (handle_contract env o mf (startdate o) code)).
  { intros w0. rewrite handle_contract_off by done. revert w0.
    apply emits_bind; [by apply emits_resolve|intros c].
    apply emits_bind; [by apply emits_emit|intros _].
    apply finish_as_requested. }
  assert (Hsd : ∀ sd', (handle_contract env o mf (startdate o) code w).1
                       = Returns sd' → sd' = startdate o).
  { intros sd'. rewrite handle_contract_off by done. unfold bind.
    destruct (resolve env mf code w) as [[c|e] w1]; [|done].
    destruct (log INFO (DownloadingContract c) w1) as [[[]|e] w2]; [|done].
    apply finish_returns_planned. }
  destruct (Hone w) as (evs & Ht & HQ).
  destruct (handle_contract env o mf (startdate o) code w) as [[sd'|e] w1];
    simpl in *; [|eauto].
  rewrite (Hsd sd' eq_refl).
  destruct (IH w1) as (evs' & Ht' & HQ').
  exists (evs ++ evs'). rewrite Ht', Ht, app_assoc. split; [done|].
  by apply Forall_app.
Qed.

(** X7.  Without append mode a run never looks at a local file, and
    every export request it makes, for whichever contract, asks for the
    requested start date and the requested end date. *)
Theorem run_without_append_asks_as_requested (env : Env) (o : Options)
    (fs : gmap string File) :
  append_flag o = false →
  Forall (as_requested o) (trace (run env o fs).2).
Proof.
  intros Ha. apply run_trace_Forall.
  unfold main, select_contracts, call_lookup.
  apply emits_bind; [by apply emits_emit|intros _].
  destruct (negb _); [apply emits_raise|].
  destruct (_ && _); [apply emits_raise|].
  apply emits_bind.
  - destruct (truthy_str (market o)); [destruct (negb _)|]; emits; done.
  - intros [mf codes]. by apply for_contracts_as_requested.
Qed.

Lemma run_without_append_asks_as_requested_witness :
  let env := sample_env (λ _, inr three_days) in
  let o := sample_options (Some ["AAA"; "BBB"]) None true "PKL" None in
  let fs : gmap string File := {[ "/data/AAA-DAILY.pkl" := Pickled two_days ]} in
  Forall (as_requested o) (trace (run env o fs).2)
  ∧ filter is_download (trace (run env o fs).2)
    = [EvDownload 1 (mkDate 2020 1 1) (mkDate 2020 1 5) "DAILY" 1;
       EvDownload 2 (mkDate 2020 1 1) (mkDate 2020 1 5) "DAILY" 1].
Proof.
  intros env o fs. split.
  - apply (run_without_append_asks_as_requested env o fs). reflexivity.
  - vm_compute. reflexivity.
Defined.

Lemma persist_off (env : Env) (o : Options) (p : string) (z : option string)
    (L D : DataFrame) (f : Fileformat) (w : World) :
  fileformat o = Fileformat_name f → append_flag o = false →
  disk env p = NoFault →
  persist env o p z L D w
  = (Returns (),
     mkWorld (<[p := written_as o f D]> (files w))
       (trace w ++ [write_call o f p D z; EvLog INFO (DataSaved p)])).
Proof.
  intros Hf Ha Hd. unfold persist, written_as, write_call.
  rewrite Hf, slice3_csv_family, slice3_pkl_family, Ha.
  unfold to_csv, to_pickle, write_file. rewrite Hd.
  destruct f; simpl; unfold bind, log, emit, store, ret; simpl;
    by rewrite <- ?app_assoc.
Qed.

(** X8.  Without append mode, a contract that is found, downloaded and
    written leaves at its destination exactly the downloaded frame, in
    the form of the format, whatever the destination held before: the
    old file is neither read nor merged.  The frame is handed to the
    writer as downloaded, with the line terminator and the compression
    of the options. *)
Theorem download_replaces_the_file (env : Env) (o : Options)
    (mf : option string) (sd : datetime) (code : string) (c : Contract.t)
    (cs : list Contract.t) (D : DataFrame) (f : Fileformat) (w : World) :
  fileformat o = Fileformat_name f → append_flag o = false →
  lookup (exporter env) (Some code) mf = inr (c :: cs) →
  Market_value env (Contract.market c) = true →
  download (exporter env) (Contract.id c) sd (enddate o) (timeframe o)
           (Contract.market c) = inr D →
  disk env (destpath_of o c) = NoFault →
  handle_contract env o mf sd code w
  = (Returns sd,
     mkWorld (<[destpath_of o c := written_as o f D]> (files w))
       (trace w ++
        [EvLog INFO (Handling code); EvLookup (Some code) mf;
         EvLog INFO (DownloadingContract c);
         EvDownload (Contract.id c) sd (enddate o) (timeframe o)
                    (Contract.market c);
         EvLog INFO (LinesDownloaded (shape0 D));
         write_call o f (destpath_of o c) D (compression_for o c);
         EvLog INFO (DataSaved (destpath_of o c))] ++
        (if bool_decide (delay o > 0)%Z
         then [EvLog INFO (Sleeping (delay o)); EvSleep (delay o)]
         else []))).
Proof.
  intros Hf Ha Hl Hm Hd Hdisk.
  rewrite handle_contract_prepare. unfold bind.
  erewrite prepare_off by eauto. simpl. unfold finish.
  unfold bind at 1. simpl. erewrite fetch_downloaded by eauto. simpl.
  unfold bind at 1. erewrite persist_off by eauto. simpl.
  unfold bind at 1. rewrite pace_run. simpl. unfold ret.
  by rewrite <- !app_assoc.
Qed.

Lemma download_replaces_the_file_witness :
  let env := sample_env (λ _, inr three_days) in
  let o := sample_options (Some ["AAA"]) None true "CSVGZ" None in
  let w := mkWorld {[ "/data/AAA-DAILY.csv.gz" := Text two_days CRLF ]} [] in
  files (handle_contract env o None (mkDate 2020 1 1) "AAA" w).2
  = {[ "/data/AAA-DAILY.csv.gz" := Text three_days CRLF ]}
  ∧ filter is_write (trace (handle_contract env o None (mkDate 2020 1 1) "AAA" w).2)
    = [EvToCsv "/data/AAA-DAILY.csv.gz" three_days CRLF (Some "gzip")].
Proof.
  intros env o w.
  rewrite (download_replaces_the_file env o None (mkDate 2020 1 1) "AAA" AAA []
             three_days CSVGZ w eq_refl eq_refl eq_refl eq_refl eq_refl
             eq_refl).
  split; [|reflexivity].
  simpl. apply insert_insert_eq.
Defined.

(** *** Append mode on a local file that cannot be resumed *)

Lemma handle_contract_cannot_resume (env : Env) (o : Options)
    (mf : option string) (sd : datetime) (code : string) (c : Contract.t)
    (cs : list Contract.t) (f : File) (e : Exc) (w : World) :
  append_flag o = true →
  lookup (exporter env) (Some code) mf = inr (c :: cs) →
  files w !! destpath_of o c = Some f →
  resume_error env (destpath_of o c) f = Some e →
  handle_contract env o mf sd code w
  = (Raises e,
     mkWorld (files w)
       (trace w ++
        [EvLog INFO (Handling code); EvLookup (Some code) mf;
         EvLog INFO (DownloadingContract c);
         EvExists (destpath_of o c); EvReadPickle (destpath_of o c)])).
Proof.
  intros Ha Hl Hf He. rewrite handle_contract_resolved. unfold bind at 1.
  rewrite (resolve_found env mf code c cs w Hl).
  unfold handle_resolved, plan. rewrite Ha.
  unfold path_exists, read_pickle, from_option, log, bind, emit, ret, raise.
  simpl. rewrite Hf. simpl. rewrite Hf. unfold resume_error in He.
  destruct f as [L| |]; simpl; simplify_eq; try by rewrite <- !app_assoc.
  destruct (iloc_last L) as [r|]; simpl; simplify_eq;
    [|by rewrite <- !app_assoc].
  destruct (strptime_Ymd _); simplify_eq. simpl. by rewrite <- !app_assoc.
Qed.

(** X9.  In append mode, a local file that cannot be resumed from ends
    the loop as soon as it is read: a file that is not a pickled frame
    raises the exception of the reader, which goes by the bytes found
    ([EOFError] on an empty file, [UnpicklingError], [LZMAError], ...),
    a frame without rows raises [IndexError], and a last row whose date
    does not read as year, month and day raises [ValueError].  No export
    request is made, no file changes, the remaining codes are not
    handled, and [skiperr] does not apply. *)
Theorem unresumable_local_file_ends_the_loop (env : Env) (o : Options)
    (mf : option string) (sd : datetime) (code : string) (rest : list string)
    (c : Contract.t) (cs : list Contract.t) (f : File) (e : Exc) (w : World) :
  append_flag o = true →
  lookup (exporter env) (Some code) mf = inr (c :: cs) →
  files w !! destpath_of o c = Some f →
  resume_error env (destpath_of o c) f = Some e →
  for_contracts env o mf sd (code :: rest) w
  = (Raises e,
     mkWorld (files w)
       (trace w ++
        [EvLog INFO (Handling code); EvLookup (Some code) mf;
         EvLog INFO (DownloadingContract c);
         EvExists (destpath_of o c); EvReadPickle (destpath_of o c)])).
Proof.
  intros Ha Hl Hf He. simpl. unfold bind.
  by rewrite (handle_contract_cannot_resume env o mf sd code c cs f e w).
Qed.

Lemma unresumable_local_file_ends_the_loop_witness :
  let env := sample_env (λ _, inr three_days) in
  let o := sample_options (Some ["AAA"; "BBB"]) None true "PKL" (Some "y") in
  let sd := mkDate 2020 1 1 in
  let holding (f : File) := mkWorld {[ "/data/AAA-DAILY.pkl" := f ]} [] in
  let on (f : File) :=
    (for_contracts env o None sd ["AAA"; "BBB"] (holding f)).1 in
  on Partial = Raises EOFError
  ∧ on (Text two_days CRLF) = Raises UnpicklingError
  ∧ on (Pickled []) = Raises IndexError
  ∧ on (Pickled [row 2020 5]) = Raises ValueError.
Proof.
  intros env o sd holding on. unfold on.
  rewrite (unresumable_local_file_ends_the_loop env o None sd "AAA" ["BBB"]
             AAA [] Partial EOFError (holding Partial)
             eq_refl eq_refl eq_refl eq_refl).
  rewrite (unresumable_local_file_ends_the_loop env o None sd "AAA" ["BBB"]
             AAA [] (Text two_days CRLF) UnpicklingError
             (holding (Text two_days CRLF)) eq_refl eq_refl eq_refl eq_refl).
  rewrite (unresumable_local_file_ends_the_loop env o None sd "AAA" ["BBB"]
             AAA [] (Pickled []) IndexError (holding (Pickled []))
             eq_refl eq_refl eq_refl eq_refl).
  rewrite (unresumable_local_file_ends_the_loop env o None sd "AAA" ["BBB"]
             AAA [] (Pickled [row 2020 5]) ValueError
             (holding (Pickled [row 2020 5])) eq_refl eq_refl eq_refl eq_refl).
  done.
Defined.

(** X10.  In append mode with a binary format, a contract without a
    local file whose download has no rows is saved as a frame without
    rows; from then on every append-mode handling of that code raises
    [IndexError] on reading the file back, before any export request. *)
Theorem empty_download_blocks_later_appends (env : Env) (o : Options)
    (mf : option string) (sd sd' : datetime) (code : string)
    (rest : list string) (c : Contract.t) (cs : list Contract.t)
    (f : Fileformat) (w : World) (tr : list Event) :
  fileformat o = Fileformat_name f → binary_family f = true →
  append_flag o = true →
  lookup (exporter env) (Some code) mf = inr (c :: cs) →
  files w !! destpath_of o c = None →
  Market_value env (Contract.market c) = true →
  download (exporter env) (Contract.id c) sd (enddate o) (timeframe o)
           (Contract.market c) = inr [] →
  disk env (destpath_of o c) = NoFault →
  let left := files (handle_contract env o mf sd code w).2 in
  left = <[destpath_of o c := Pickled []]> (files w)
  ∧ (for_contracts env o mf sd' (code :: rest) (mkWorld left tr)).1
    = Raises IndexError
  ∧ files (for_contracts env o mf sd' (code :: rest) (mkWorld left tr)).2 = left
  ∧ filter is_download
      (trace (for_contracts env o mf sd' (code :: rest) (mkWorld left tr)).2)
    = filter is_download tr.
Proof.
  intros Hf Hb Ha Hl Hfile Hm Hd Hdisk left.
  assert (Hleft : left = <[destpath_of o c := Pickled []]> (files w)).
  { subst left.
    by rewrite (handle_contract_fresh env o mf sd code c cs [] f w). }
  split; [done|]. simpl. unfold bind.
  rewrite (handle_contract_cannot_resume env o mf sd' code c cs (Pickled [])
             IndexError (mkWorld left tr)); try done.
  - simpl. split; [done|]. split; [done|].
    rewrite filter_app. simpl. by rewrite app_nil_r.
  - simpl. rewrite Hleft. apply lookup_insert_eq.
Qed.

Lemma empty_download_blocks_later_appends_witness :
  let env := sample_env (λ _, inr []) in
  let o := sample_options (Some ["AAA"]) None true "PKL" (Some "y") in
  let left := files (run env o ∅).2 in
  left = {[ "/data/AAA-DAILY.pkl" := Pickled [] ]}
  ∧ (run env o left).1 = Raises IndexError.
Proof.
  intros env o left.
  assert (Hfree : (∅ : gmap string File) !! destpath_of o AAA = None)
    by apply lookup_empty.
  destruct (empty_download_blocks_later_appends env o None (mkDate 2020 1 1)
              (mkDate 2020 1 1) "AAA" [] AAA [] PKL (mkWorld ∅ [EvCreated])
              [EvCreated] eq_refl eq_refl eq_refl eq_refl Hfree eq_refl
              eq_refl eq_refl) as (Hleft & Hraise & _).
  split; [exact Hleft|exact Hraise].
Defined.

(** *** What [skiperr] does not cover *)

Lemma prepare_no_sleep (env : Env) (o : Options) mf sd code :
  Emits (λ e, is_sleep e = false) (prepare env o mf sd code).
Proof.
  unfold prepare, resolve, plan, call_lookup, log. emits; done.
Qed.

(** X12.  [skiperr] covers export errors only.  When the market of the
    contract does not convert to a member of the enumeration, when the
    export request raises an exception that is no export error, and
    when the download succeeds but the write to the destination fails,
    the exception ends the loop at once, with [skiperr] as without it:
    the remaining codes are not handled and the process does not
    sleep. *)
Theorem skiperr_covers_export_errors_only (env : Env) (o : Options)
    (mf : option string) (sd sd' : datetime) (code : string)
    (rest : list string) (c : Contract.t) (L : DataFrame) (f : Fileformat)
    (w w2 : World) :
  prepare env o mf sd code w = (Returns (c, (L, sd')), w2) →
  fileformat o = Fileformat_name f →
  let request := EvDownload (Contract.id c) sd' (enddate o) (timeframe o)
                            (Contract.market c) in
  let r := for_contracts env o mf sd (code :: rest) w in
  if Market_value env (Contract.market c) then
    match download (exporter env) (Contract.id c) sd' (enddate o) (timeframe o)
                   (Contract.market c) with
    | inl e =>
        is_FinamExportError e = false →
        r = (Raises e, mkWorld (files w) (trace w2 ++ [request]))
    | inr D =>
        disk env (destpath_of o c) ≠ NoFault →
        r.1 = Raises OSError
        ∧ filter is_sleep (trace r.2) = filter is_sleep (trace w)
        ∧ filter is_lookup (trace r.2)
          = filter is_lookup (trace w) ++ [EvLookup (Some code) mf]
    end
  else r = (Raises ValueError, mkWorld (files w) (trace w2)).
Proof.
  intros Hprep Hf request r.
  assert (Hfiles : files w2 = files w).
  { pose proof (prepare_keeps_files env o mf sd code w) as H.
    by rewrite Hprep in H. }
  assert (Hstep : r = bind (finish env o c (L, sd'))
                           (λ sd1, for_contracts env o mf sd1 rest) w2).
  { subst r. simpl. unfold bind at 1. rewrite handle_contract_prepare.
    unfold bind at 1. rewrite Hprep. simpl. unfold bind.
    by destruct (finish env o c (L, sd') w2) as [[sd1|e] w3]. }
  destruct (Market_value env (Contract.market c)) eqn:Hm.
  2:{ rewrite Hstep. unfold bind, finish. simpl.
      unfold fetch, try_except, call_download, Market, bind, raise.
      rewrite Hm. simpl. rewrite <- Hfiles. by destruct w2. }
  destruct (download _ _ _ _ _ _) as [e|D] eqn:Hd.
  - intros He. rewrite Hstep. unfold bind, finish. simpl.
    unfold fetch, try_except, call_download, Market, from_sum, log, bind, emit,
      ret, raise.
    rewrite Hm. simpl. rewrite Hd, He. simpl. by rewrite Hfiles.
  - intros Hdisk.
    assert (Hfin : ∃ w3, finish env o c (L, sd') w2 = (Raises OSError, w3)
                         ∧ filter is_sleep (trace w3) = filter is_sleep (trace w2)).
    { unfold finish. unfold bind at 1. simpl.
      erewrite fetch_downloaded by eauto. simpl. unfold bind at 1.
      unfold persist. rewrite Hf, slice3_csv_family, slice3_pkl_family.
      unfold to_csv, to_pickle, write_file.
      destruct f, (append_flag o), (disk env (destpath_of o c)); simpl;
        try done;
        unfold bind, log, emit, store, raise, ret; simpl;
        eexists; (split; [reflexivity|]); simpl;
        rewrite !filter_app; simpl; by rewrite !app_nil_r. }
    destruct Hfin as (w3 & Hfin & Hsleep).
    assert (Hr : r = (Raises OSError, w3)).
    { rewrite Hstep. unfold bind. by rewrite Hfin. }
    rewrite Hr. simpl. split; [done|]. split.
    + rewrite Hsleep.
      pose proof (emits_filter is_sleep _ w
                    (prepare_no_sleep env o mf sd code)) as H.
      by rewrite Hprep in H.
    + pose proof (handle_contract_one_lookup env o mf sd code w) as H.
      rewrite handle_contract_prepare in H. unfold bind in H.
      rewrite Hprep in H. simpl in H. by rewrite Hfin in H.
Qed.

Lemma skiperr_covers_export_errors_only_witness :
  let sd := mkDate 2020 1 1 in
  let o := sample_options (Some ["AAA"; "BBB"]) None true "PKL" None in
  let before (c : Contract.t) :=
    [EvLog INFO (Handling (Contract.code c));
     EvLookup (Some (Contract.code c)) None;
     EvLog INFO (DownloadingContract c)] in
  for_contracts (sample_env (λ _, inl (OtherError "timeout"))) o None sd
                ["AAA"; "BBB"] (mkWorld ∅ [])
  = (Raises (OtherError "timeout"),
     mkWorld ∅ (before AAA ++ [EvDownload 1 sd (mkDate 2020 1 5) "DAILY" 1]))
  ∧ (for_contracts (sample_env_on (λ _, inr three_days) failing_disk)
                   o None sd ["AAA"; "BBB"] (mkWorld ∅ [])).1
    = Raises OSError
  ∧ for_contracts (sample_env (λ _, inr three_days)) o None sd
                  ["ZZZ"; "BBB"] (mkWorld ∅ [])
    = (Raises ValueError, mkWorld ∅ (before ZZZ)).
Proof.
  intros sd o before. split; [|split].
  - pose proof (skiperr_covers_export_errors_only
                  (sample_env (λ _, inl (OtherError "timeout"))) o None sd sd
                  "AAA" ["BBB"] AAA [] PKL (mkWorld ∅ []) (mkWorld ∅ (before AAA))
                  eq_refl eq_refl) as H.
    apply H. reflexivity.
  - pose proof (skiperr_covers_export_errors_only
                  (sample_env_on (λ _, inr three_days) failing_disk)
                  o None sd sd "AAA" ["BBB"] AAA [] PKL (mkWorld ∅ [])
                  (mkWorld ∅ (before AAA)) eq_refl eq_refl) as H.
    apply H. done.
  - exact (skiperr_covers_export_errors_only
             (sample_env (λ _, inr three_days)) o None sd sd
             "ZZZ" ["BBB"] ZZZ [] PKL (mkWorld ∅ []) (mkWorld ∅ (before ZZZ))
             eq_refl eq_refl).
Defined.

(** *** Local rows in a merge *)

Lemma drop_duplicates_keeps_local (L D : DataFrame) :
  NoDup L →
  drop_duplicates (pd_concat L D) = L ++ drop_duplicates_from L D.
Proof.
  intros Hnd. unfold drop_duplicates, pd_concat.
  rewrite drop_duplicates_from_app, app_nil_r.
  by rewrite (drop_duplicates_from_NoDup [] L Hnd)
    by (intros x _; apply not_elem_of_nil).
Qed.

(** X13.  In append mode with a binary format, over a local frame
    without repeated rows the merge only adds rows at the end: the frame
    written is the local frame, row for row, followed by the downloaded
    rows that are not local, each once; the count the log reports is the
    number of rows added, so never negative; and the frame written has
    again no repeated rows. *)
Theorem append_adds_rows_at_the_end
    (env : Env) (o : Options) (p : string) (z : option string)
    (L D : DataFrame) (f : Fileformat) (w : World) :
  fileformat o = Fileformat_name f → binary_family f = true →
  append_flag o = true → disk env p = NoFault →
  NoDup L →
  let added := drop_duplicates_from L D in
  persist env o p z L D w
  = (Returns (),
     mkWorld (<[p := Pickled (L ++ added)]> (files w))
       (trace w ++
        [EvLog INFO (RecordsAdded (Z.of_nat (length added)) (shape0 L));
         EvToPickle p (L ++ added) z;
         EvLog INFO (DataSaved p)]))
  ∧ (∀ r, r ∈ added ↔ r ∈ D ∧ r ∉ L)
  ∧ NoDup (L ++ added).
Proof.
  intros Hf Hb Ha Hd Hnd added.
  pose proof (drop_duplicates_keeps_local L D Hnd) as Hkeep.
  split; [|split].
  - rewrite (persist_merged env o p z L D w f) by done. rewrite Hkeep.
    fold added.
    assert (shape0 (L ++ added) - shape0 L = Z.of_nat (length added))%Z as ->.
    { unfold shape0. rewrite length_app. lia. }
    done.
  - intros r. apply elem_of_drop_duplicates_from.
  - fold added in Hkeep. rewrite <- Hkeep. apply NoDup_drop_duplicates_from.
Qed.

Lemma append_adds_rows_at_the_end_witness :
  let env := sample_env (λ _, inr three_days) in
  let o := sample_options (Some ["AAA"]) None true "PKL" (Some "y") in
  persist env o "/data/AAA-DAILY.pkl" None two_days three_days (mkWorld ∅ [])
  = (Returns (),
     mkWorld {[ "/data/AAA-DAILY.pkl" :=
                  Pickled (two_days ++ [row 20200104 6; row 20200105 7]) ]}
       [EvLog INFO (RecordsAdded 2 2);
        EvToPickle "/data/AAA-DAILY.pkl"
                   (two_days ++ [row 20200104 6; row 20200105 7]) None;
        EvLog INFO (DataSaved "/data/AAA-DAILY.pkl")]).
Proof.
  intros env o.
  assert (Hnd : NoDup two_days).
  { unfold two_days, row. repeat constructor; set_solver. }
  exact (proj1 (append_adds_rows_at_the_end env o "/data/AAA-DAILY.pkl" None
                  two_days three_days PKL (mkWorld ∅ [])
                  eq_refl eq_refl eq_refl eq_refl Hnd)).
Defined.

(** *** The files a run changes *)

Lemma only_destinations_change_refl (o : Options) (fs : gmap string File) :
  only_destinations_change o fs fs.
Proof. by split. Qed.

Lemma only_destinations_change_trans (o : Options)
    (fs1 fs2 fs3 : gmap string File) :
  only_destinations_change o fs1 fs2 → only_destinations_change o fs2 fs3 →
  only_destinations_change o fs1 fs3.
Proof.
  intros [H1 H2] [H3 H4]. split; [by auto|].
  intros q Hq. by rewrite H4, H2.
Qed.

Lemma only_destinations_change_insert (o : Options) (fs : gmap string File)
    (c : Contract.t) (f : File) :
  only_destinations_change o fs (<[destpath_of o c := f]> fs).
Proof.
  split.
  - intros q Hq. destruct (decide (destpath_of o c = q)) as [->|Hne].
    + rewrite lookup_insert_eq. eauto.
    + by rewrite lookup_insert_ne.
  - intros q Hq. rewrite lookup_insert_ne; [done|]. intros Heq.
    by apply (Hq c).
Qed.

Lemma persist_files_cases (env : Env) (o : Options) (p : string)
    (z : option string) (L D : DataFrame) (w : World) :
  files (persist env o p z L D w).2 = files w
  ∨ ∃ f, files (persist env o p z L D w).2 = <[p := f]> (files w).
Proof.
  unfold persist, to_csv, to_pickle, write_file.
  destruct (String.eqb _ "CSV"); [|destruct (append_flag o);
    destruct (String.eqb _ "PKL")]; destruct (disk env p);
    unfold bind, log, emit, store, raise, ret; simpl; eauto.
Qed.

Lemma finish_changes_destination (env : Env) (o : Options) (c : Contract.t)
    (planned : DataFrame * datetime) (w : World) :
  only_destinations_change o (files w) (files (finish env o c planned w).2).
Proof.
  unfold finish, fetch, try_except, call_download, Market, log, bind, emit,
    from_sum, ret, raise.
  destruct (Market_value env (Contract.market c)); simpl;
    [|apply only_destinations_change_refl].
  destruct (download _ _ _ _ _ _) as [e|D]; simpl.
  - destruct (is_FinamExportError e); simpl;
      [destruct (skiperr o)|]; apply only_destinations_change_refl.
  - set (w1 := mkWorld _ _).
    pose proof (persist_files_cases env o (destpath_of o c)
                  (compression_for o c) planned.1 D w1) as Hp.
    destruct (persist _ _ _ _ _ _ w1) as [[[]|e] w2]; simpl in *.
    + rewrite pace_run. simpl.
      destruct Hp as [->|[f ->]];
        [apply only_destinations_change_refl
        |apply only_destinations_change_insert].
    + destruct Hp as [->|[f ->]];
        [apply only_destinations_change_refl
        |apply only_destinations_change_insert].
Qed.

Lemma handle_contract_changes_destination (env : Env) (o : Options)
    (mf : option string) (sd : datetime) (code : string) (w : World) :
  only_destinations_change o (files w)
    (files (handle_contract env o mf sd code w).2).
Proof.
  rewrite handle_contract_prepare. unfold bind.
  pose proof (prepare_keeps_files env o mf sd code w) as Hkeep.
  destruct (prepare env o mf sd code w) as [[[c planned]|e] w1]; simpl in *.
  - rewrite <- Hkeep. apply finish_changes_destination.
  - rewrite Hkeep. apply only_destinations_change_refl.
Qed.

Lemma for_contracts_changes_destinations (env : Env) (o : Options)
    (mf : option string) (sd : datetime) (codes : list string) (w : World) :
  only_destinations_change o (files w)
    (files (for_contracts env o mf sd codes w).2).
Proof.
  revert sd w. induction codes as [|code rest IH]; intros sd w.
  - apply only_destinations_change_refl.
  - simpl. unfold bind.
    pose proof (handle_contract_changes_destination env o mf sd code w) as H.
    destruct (handle_contract env o mf sd code w) as [[sd'|e] w1]; [|done].
    eapply only_destinations_change_trans; [exact H|apply IH].
Qed.

(** X14.  A run never removes a file, and the only paths whose content
    it changes are destination paths: a file that is no contract's
    destination under the options is after the run what it was
    before, however the run ends. *)
Theorem run_changes_destinations_only (env : Env) (o : Options)
    (fs : gmap string File) :
  only_destinations_change o fs (files (run env o fs).2).
Proof.
  unfold run, main. unfold bind at 1. unfold emit at 1. simpl.
  destruct (negb _); [apply only_destinations_change_refl|].
  destruct (_ && _); [apply only_destinations_change_refl|].
  unfold bind.
  pose proof (select_contracts_again env o (mkWorld fs [EvCreated])
                (mkWorld fs [EvCreated])) as [_ Hsel].
  destruct (select_contracts env o _) as [[[mf codes]|e] w1]; simpl in *.
  - rewrite <- Hsel. apply for_contracts_changes_destinations.
  - rewrite Hsel. apply only_destinations_change_refl.
Qed.

(** *** Destination paths *)

Lemma prefix_append (a b : string) : String.prefix a (a +:+ b) = true.
Proof.
  induction a as [|x a IH]; [by destruct b|].
  change (String x a +:+ b) with (String x (a +:+ b)).
  cbn -[ascii_dec]. by destruct (ascii_dec x x).
Qed.

Lemma length_append (a b : string) :
  String.length (a +:+ b) = String.length a + String.length b.
Proof.
  induction a as [|x a IH]; [done|].
  change (String x a +:+ b) with (String x (a +:+ b)). simpl. by rewrite IH.
Qed.

Lemma append_inj_r (a b t : string) : a +:+ t = b +:+ t → a = b.
Proof.
  revert b. induction a as [|x a IH]; intros [|y b] H.
  - done.
  - apply (f_equal String.length) in H. rewrite !length_append in H.
    simpl in H. lia.
  - apply (f_equal String.length) in H. rewrite !length_append in H.
    simpl in H. lia.
  - change (String x (a +:+ t) = String y (b +:+ t)) in H.
    injection H as -> H. f_equal. by apply IH.
Qed.

(** The directory part [os.path.join] puts before a relative name. *)
Lemma os_path_join_relative (a b : string) :
  String.prefix "/" b = false →
  os_path_join a b
  = (if bool_decide (a = "") || String.prefix "/" (String.rev a)
     then a else a +:+ "/") +:+ b.
Proof.
  intros Hb. unfold os_path_join. rewrite Hb.
  destruct (_ || _); [done|]. by rewrite append_assoc.
Qed.

(** X15.  A destination lies under the destination directory as long as
    the code of the contract does not start with a slash: the path then
    starts with the directory.  A code that starts with a slash is
    taken as an absolute name and the directory does not appear in the
    path at all. *)
Theorem destination_under_destdir
    (destdir code timeframe ext : string) (f : Fileformat) :
  let path := (destination destdir code timeframe ext (Fileformat_name f)).1 in
  if String.prefix "/" code
  then path = code +:+ "-" +:+ timeframe +:+ suffix_of f ext
  else String.prefix destdir path = true.
Proof.
  intros path.
  assert (Hpath : path = os_path_join destdir (code +:+ "-" +:+ timeframe)
                         +:+ suffix_of f ext).
  { subst path. by destruct f. }
  destruct (String.prefix "/" code) eqn:Hcode.
  - rewrite Hpath. unfold os_path_join.
    assert (String.prefix "/" (code +:+ "-" +:+ timeframe) = true) as ->.
    { destruct code as [|x code]; [done|].
      change (String x code +:+ "-" +:+ timeframe)
        with (String x (code +:+ "-" +:+ timeframe)).
      cbn -[ascii_dec] in *. destruct (ascii_dec _ x); [|done].
      by destruct (code +:+ "-" +:+ timeframe). }
    by rewrite !append_assoc.
  - rewrite Hpath, os_path_join_relative by by apply prefix_slash_code.
    destruct (_ || _); rewrite !append_assoc; apply prefix_append.
Qed.

(** X16.  Under the same options, two contracts whose codes differ and
    do not start with a slash get destination paths that differ as
    texts: the text of the path determines the code.  (Two different
    texts can still name one file, as the paths of the codes [x] and
    [./x] do.) *)
Theorem different_codes_different_paths (o : Options) (f : Fileformat)
    (c1 c2 : Contract.t) :
  fileformat o = Fileformat_name f →
  String.prefix "/" (Contract.code c1) = false →
  String.prefix "/" (Contract.code c2) = false →
  Contract.code c1 ≠ Contract.code c2 →
  destpath_of o c1 ≠ destpath_of o c2.
Proof.
  intros Hf H1 H2 Hne. unfold destpath_of. rewrite Hf.
  assert (Hpath : ∀ code,
    (destination (destdir o) code (timeframe o) (ext o) (Fileformat_name f)).1
    = os_path_join (destdir o) (code +:+ "-" +:+ timeframe o)
      +:+ suffix_of f (ext o)) by (intros; by destruct f).
  rewrite !Hpath, !os_path_join_relative by by apply prefix_slash_code.
  rewrite !append_assoc. intros Heq. apply Hne.
  apply String.app_inj in Heq. by apply append_inj_r in Heq.
Qed.

Lemma different_codes_different_paths_witness :
  let o := sample_options (Some ["AAA"; "AAA-D"]) None true "PKL" None in
  destpath_of o AAA = "/data/AAA-DAILY.pkl"
  ∧ destpath_of o (Contract.mk 7 "AAA-D" 1) = "/data/AAA-D-DAILY.pkl"
  ∧ destpath_of o AAA ≠ destpath_of o (Contract.mk 7 "AAA-D" 1).
Proof.
  intros o. split; [reflexivity|]. split; [reflexivity|].
  apply (different_codes_different_paths o PKL AAA (Contract.mk 7 "AAA-D" 1));
    [reflexivity|reflexivity|reflexivity|].
  intros H. discriminate H.
Defined.

(** *** Dates kept as integers *)

(** X17.  When the last row of the local frame keeps its date as the
    integer [10000 * year + 100 * month + day] of a real day of a year
    of four digits, the plan of the iteration reads that very day back
    and the append-mode export request of the contract, made once the
    market of the contract has converted, starts at exactly that day. *)
Theorem append_resumes_from_integer_date (env : Env) (o : Options)
    (mf : option string) (sd : datetime) (code : string) (c : Contract.t)
    (cs : list Contract.t) (L : DataFrame) (r : Row) (y m d : Z) (w : World) :
  append_flag o = true →
  lookup (exporter env) (Some code) mf = inr (c :: cs) →
  files w !! destpath_of o c = Some (Pickled L) →
  iloc_last L = Some r →
  DATE r = CInt (10000 * y + 100 * m + d) →
  (1000 ≤ y)%Z → valid_date y m d = true →
  (plan env o (destpath_of o c) sd w).1 = Returns (L, mkDate y m d)
  ∧ (Market_value env (Contract.market c) = true →
     filter is_download (trace (handle_contract env o mf sd code w).2)
     = filter is_download (trace w)
       ++ [EvDownload (Contract.id c) (mkDate y m d) (enddate o) (timeframe o)
                      (Contract.market c)])
  ∧ (Market_value env (Contract.market c) = false →
     handle_contract env o mf sd code w
     = (Raises ValueError,
        mkWorld (files w)
          (trace w ++
           [EvLog INFO (Handling code); EvLookup (Some code) mf;
            EvLog INFO (DownloadingContract c);
            EvExists (destpath_of o c); EvReadPickle (destpath_of o c);
            EvLog INFO (FoundLocalFile (astype_str (DATE r)))]))).
Proof.
  intros Ha Hl Hfile Hlast Hdate Hy Hvalid.
  assert (Hparse : strptime_Ymd (astype_str (DATE r)) = Some (mkDate y m d)).
  { rewrite Hdate. by apply strptime_date_number. }
  split; [by erewrite plan_existing by eauto|].
  split; intros Hm.
  - rewrite handle_contract_prepare. unfold bind.
    erewrite prepare_existing by eauto. simpl.
    rewrite finish_downloads, Hm. simpl.
    rewrite filter_app. simpl. by rewrite app_nil_r.
  - rewrite handle_contract_prepare. unfold bind.
    erewrite prepare_existing by eauto. simpl.
    unfold finish, fetch, try_except, call_download, Market, bind, raise.
    simpl. by rewrite Hm.
Qed.

Lemma append_resumes_from_integer_date_witness :
  let env := sample_env (λ _, inr three_days) in
  let o := sample_options (Some ["AAA"]) None true "PKL" (Some "y") in
  let w := mkWorld {[ "/data/AAA-DAILY.pkl" := Pickled [row 20240229 1] ]} [] in
  filter is_download
    (trace (handle_contract env o None (mkDate 2020 1 1) "AAA" w).2)
  = [EvDownload 1 (mkDate 2024 2 29) (mkDate 2020 1 5) "DAILY" 1].
Proof.
  intros env o w.
  assert (Hy : (1000 ≤ 2024)%Z) by lia.
  apply (proj1 (proj2 (append_resumes_from_integer_date env o None
                         (mkDate 2020 1 1) "AAA" AAA [] [row 20240229 1]
                         (row 20240229 1) 2024 2 29 w
                         eq_refl eq_refl eq_refl eq_refl eq_refl Hy eq_refl))).
  reflexivity.
Defined.

(** *** The time a run sleeps *)

Lemma sleep_seconds_pacing (tr : list Event) :
  sleep_seconds (filter is_pacing tr) = sleep_seconds tr.
Proof.
  induction tr as [|e tr IH]; [done|].
  rewrite filter_cons. destruct e as [| | | | | | |l m|]; simpl; try done.
  - by destruct m; simpl.
  - by rewrite IH.
Qed.

Lemma saved_count_pacing (tr : list Event) :
  saved_count (filter is_pacing tr) = saved_count tr.
Proof.
  induction tr as [|e tr IH]; [done|].
  rewrite filter_cons. destruct e as [| | | | | | |l m|]; simpl; try done.
  destruct m; simpl; by rewrite ?IH.
Qed.

Lemma Paced_sleep_seconds (d : Z) (tr : list Event) :
  Paced d tr → sleep_seconds tr = (d * saved_count tr)%Z.
Proof.
  induction 1 as [|wr Hwr|wr p rest Hwr _ IH|e rest _ IH].
  - simpl. lia.
  - destruct wr; try done; simpl; lia.
  - destruct wr; try done; simpl; lia.
  - simpl. lia.
Qed.

Lemma no_sleep_seconds (tr : list Event) :
  Forall (λ e, is_sleep e = false) tr → sleep_seconds tr = 0%Z.
Proof.
  induction 1 as [|e tr He _ IH]; [done|]. by destruct e.
Qed.

(** X18.  Over a whole run with a positive delay the process sleeps the
    delay times the number of contracts reported saved, no more and no
    less, however the run ends; with a delay that is not positive it
    does not sleep at all. *)
Theorem run_sleeps_delay_per_saved_contract (env : Env) (o : Options)
    (f : Fileformat) (fs : gmap string File) :
  fileformat o = Fileformat_name f →
  sleep_seconds (trace (run env o fs).2)
  = if bool_decide (delay o > 0)%Z
    then (delay o * saved_count (trace (run env o fs).2))%Z
    else 0%Z.
Proof.
  intros Hf. case_bool_decide as Hd.
  - rewrite <- sleep_seconds_pacing, <- saved_count_pacing.
    apply Paced_sleep_seconds. by apply main_pacing with f.
  - apply no_sleep_seconds, run_trace_Forall, main_no_sleep. lia.
Qed.

Lemma run_sleeps_delay_per_saved_contract_witness :
  let env := sample_env failing_AAA in
  let o := with_delay 30
             (sample_options (Some ["AAA"; "BBB"; "BBB"]) None true "PKL" None) in
  sleep_seconds (trace (run env o ∅).2) = 60%Z.
Proof.
  intros env o.
  by rewrite (run_sleeps_delay_per_saved_contract env o PKL ∅ eq_refl).
Defined.

(** *** The value of the append option *)

Lemma handle_contract_without_append (env : Env) (o : Options)
    (mf : option string) (sd : datetime) (code : string) (w : World) :
  append_flag o = false →
  handle_contract env (without_append o) mf sd code w
  = handle_contract env o mf sd code w.
Proof.
  intros Ha.
  assert (Ha' : append_flag (without_append o) = false) by done.
  unfold handle_contract, plan, persist, fetch, pace. rewrite Ha, Ha'.
  reflexivity.
Qed.

Lemma for_contracts_without_append (env : Env) (o : Options)
    (mf : option string) (sd : datetime) (codes : list string) (w : World) :
  append_flag o = false →
  for_contracts env (without_append o) mf sd codes w
  = for_contracts env o mf sd codes w.
Proof.
  intros Ha. revert sd w. induction codes as [|code rest IH]; intros sd w;
    [done|].
  simpl. unfold bind. rewrite handle_contract_without_append by done.
  destruct (handle_contract env o mf sd code w) as [[sd'|e] w1]; [|done].
  apply IH.
Qed.

(** X19.  With a format that is not text, any value of the append
    option other than [y], [n] for one, gives the very run that leaving
    the option out gives: same outcome, same files, same trace. *)
Theorem append_other_than_y_is_no_append (env : Env) (o : Options)
    (fs : gmap string File) :
  String.eqb (slice3 (fileformat o)) "CSV" = false →
  append o ≠ Some "y" →
  run env o fs = run env (without_append o) fs.
Proof.
  intros Htext Hy.
  assert (Ha : append_flag o = false).
  { unfold append_flag. by apply bool_decide_eq_false. }
  unfold run, main, select_contracts. simpl. rewrite Htext, andb_false_r.
  unfold bind at 1 3. unfold emit. simpl.
  destruct (negb _); [done|].
  unfold bind.
  destruct (if truthy_str (market o) then _ else _) as [[[mf codes]|e] w1];
    [|done].
  by rewrite for_contracts_without_append.
Qed.

Lemma append_other_than_y_is_no_append_witness :
  let env := sample_env (λ _, inr three_days) in
  run env (sample_options (Some ["AAA"]) None true "PKL" (Some "n")) ∅
  = run env (sample_options (Some ["AAA"]) None true "PKL" None) ∅.
Proof.
  intros env.
  apply (append_other_than_y_is_no_append env
           (sample_options (Some ["AAA"]) None true "PKL" (Some "n")) ∅);
    done.
Defined.
